(** * btbricks: discovery, connection state, callback registry and the two
      connection managers

    A shallow embedding of the five modules of the package
    ([_connection_context.py], [_callback_registry.py],
    [_discovery_manager.py], [_uart_manager.py], [_lego_manager.py]) and the
    properties of their specification.

    Conventions of the embedding.
    - A Python attribute that may hold [None] is an [option]; integers are [Z].
    - A bytes-like argument is either an immutable [bytes] value or a
      reference to a mutable buffer (bytearray, memoryview) living in a
      store; [bytes(x)] reads the store once and yields an immutable value.
    - Dictionaries are [gmap]s. Keys are [option Z] because the managers may
      register under a connection handle that is still [None]; values are
      [option callback] because a caller may register [None].
    - A user callback is an opaque callable, identified by a number; calling
      it is recorded as an event and has no other effect on the modelled
      objects.
    - A call may raise. [__import__] finds a module by its dotted name in a
      table of modules, and a method call on a context looks the name up on
      the instance and in the body of its class; both raise when the name is
      not there.
    - The BLE stack object [_ble] and the handler's own methods [scan] and
      [print_log] are outside the package: they are interfaces whose
      operations may raise. The events handled while a manager sleeps are a
      transformer of the handler. *)

From Stdlib Require Import ZArith String List.
From Stdlib.Strings Require Import Byte.
From stdpp Require Import base gmap strings list pretty.

Open Scope Z_scope.

(** ** Python values used by the package *)

Module Py.

(** Identity of a callable object. *)
Definition callback := nat.

(** Truthiness of an optional callable: [None] is falsy, a function is
    truthy. *)
Definition truthy {A} (o : option A) : bool :=
  match o with Some _ => true | None => false end.

(** [bluetooth.UUID]: a 16-bit number or a 128-bit string; equality is by
    value. *)
Inductive UUID :=
| UUID16 (n : Z)
| UUID128 (s : string).

#[export] Instance UUID_eq_dec : EqDecision UUID.
Proof. solve_decision. Defined.

(** Buffers: locations of mutable byte buffers and the store holding them. *)
Definition loc := nat.
Definition store := loc -> list byte.

(** A bytes-like object. *)
Inductive buffer :=
| Bytes (bs : list byte)      (* immutable [bytes] *)
| BufRef (l : loc).           (* bytearray / memoryview owned by the caller *)

(** What a bytes-like object reads as, in a given store. *)
Definition contents (h : store) (b : buffer) : list byte :=
  match b with
  | Bytes bs => bs
  | BufRef l => h l
  end.

(** [bytes(b)]: a fresh immutable copy of the current contents. *)
Definition bytes (h : store) (b : buffer) : buffer := Bytes (contents h b).

(** The caller overwrites its buffer at [l]. *)
Definition store_write (l : loc) (bs : list byte) (h : store) : store :=
  fun l' => if decide (l' = l) then bs else h l'.

(** [x in l] on a list: the first element equal to [x] decides. *)
Fixpoint contains {A} `{EqDecision A} (x : A) (l : list A) : bool :=
  match l with
  | [] => false
  | y :: l' => if decide (x = y) then true else contains x l'
  end.

(** [range(n)]. *)
Definition range (n : Z) : list Z := map Z.of_nat (seq 0 (Z.to_nat n)).

(** [x is not None]. *)
Definition is_not_None {A} (o : option A) : bool := truthy o.

End Py.
Import Py.

(** ** Calls that raise, modules and [__import__] *)

(** A Python call returns or raises. *)
Inductive outcome (A : Type) :=
| Return (a : A)
| Raise (e : string).
Arguments Return {A} a.
Arguments Raise {A} e.

Module PyImport.

(** [__import__(name, fromlist=[""])]: the module of that dotted name, when
    the table of importable modules has one. A module is given by its
    integer globals, which is all the package reads from a module. *)
Definition __import__ (modules : gmap string (gmap string Z)) (name : string)
    : outcome (gmap string Z) :=
  match modules !! name with
  | Some m => Return m
  | None => Raise "ModuleNotFoundError"
  end.

(** [m.attribute] on a module. *)
Definition getattr (m : gmap string Z) (attribute : string) : outcome Z :=
  match m !! attribute with
  | Some z => Return z
  | None => Raise "AttributeError"
  end.

(** [__import__(name, fromlist=[""]).attribute] *)
Definition imported (modules : gmap string (gmap string Z))
    (name attribute : string) : outcome Z :=
  match __import__ modules name with
  | Return m => getattr m attribute
  | Raise e => Raise e
  end.

End PyImport.

(** ** _connection_context.py *)

(** Discovery/connect modes (module-level constants). *)
Definition CONNECTING_NONE : Z := 0.
Definition CONNECTING_UART : Z := 1.
Definition CONNECTING_LEGO : Z := 2.

Module ConnectionContext.

(** Connection states. *)
Definition STATE_IDLE : Z := 0.
Definition STATE_CONNECTING : Z := 1.
Definition STATE_DISCOVERING : Z := 2.
Definition STATE_CONNECTED : Z := 3.
Definition STATE_DISCONNECTING : Z := 4.

(** The attributes of a context object. In the source file the functions
    from [__init__] to [clear_connection] stand at module level, below the
    class statement and its constants, each with the context as its first
    parameter [self]; the managers call them as methods of
    [ble_handler._connection]. They are embedded as functions of the
    context, which is what either way of calling them does to it. *)
Record t := mk {
  conn_handle : option Z;
  addr_type : option Z;
  addr : option buffer;
  start_handle : option Z;
  end_handle : option Z;
  uart_rx_handle : option Z;
  uart_tx_handle : option Z;
  lego_value_handle : option Z;
  adv_type : option Z;
  name : option string;
  services : option (list UUID);
  state : Z
}.

Definition __init__ : t :=
  mk None None None None None None None None None None None STATE_IDLE.

Definition reset (self : t) : t :=
  mk None None None None None None None None None None None STATE_IDLE.

Definition set_connection_info (h : store) (self : t)
    (conn_handle' : option Z) (addr_type' : option Z) (addr' : option buffer) : t :=
  let self := mk conn_handle' (addr_type self) (addr self)
                 (start_handle self) (end_handle self)
                 (uart_rx_handle self) (uart_tx_handle self)
                 (lego_value_handle self)
                 (adv_type self) (name self) (services self) (state self) in
  let self :=
    if is_not_None addr_type' then
      mk (conn_handle self) addr_type' (addr self)
         (start_handle self) (end_handle self)
         (uart_rx_handle self) (uart_tx_handle self)
         (lego_value_handle self)
         (adv_type self) (name self) (services self) (state self)
    else self in
  match addr' with
  | Some a =>
      mk (conn_handle self) (addr_type self) (Some (bytes h a))
         (start_handle self) (end_handle self)
         (uart_rx_handle self) (uart_tx_handle self)
         (lego_value_handle self)
         (adv_type self) (name self) (services self) (state self)
  | None => self
  end.

Definition set_discovery_handles (self : t) (start_handle' end_handle' : option Z) : t :=
  mk (conn_handle self) (addr_type self) (addr self)
     start_handle' end_handle'
     (uart_rx_handle self) (uart_tx_handle self)
     (lego_value_handle self)
     (adv_type self) (name self) (services self) (state self).

Definition set_uart_handles (self : t) (rx_handle tx_handle : option Z) : t :=
  mk (conn_handle self) (addr_type self) (addr self)
     (start_handle self) (end_handle self)
     rx_handle tx_handle
     (lego_value_handle self)
     (adv_type self) (name self) (services self) (state self).

Definition set_lego_handle (self : t) (value_handle : option Z) : t :=
  mk (conn_handle self) (addr_type self) (addr self)
     (start_handle self) (end_handle self)
     (uart_rx_handle self) (uart_tx_handle self)
     value_handle
     (adv_type self) (name self) (services self) (state self).

(** [services if services else []]: [None] and the empty list are falsy. *)
Definition set_discovery_data (self : t)
    (adv_type' : option Z) (name' : option string) (services' : option (list UUID)) : t :=
  mk (conn_handle self) (addr_type self) (addr self)
     (start_handle self) (end_handle self)
     (uart_rx_handle self) (uart_tx_handle self)
     (lego_value_handle self)
     adv_type' name'
     (Some match services' with
           | Some (u :: l) => u :: l
           | _ => []
           end)
     (state self).

Definition is_uart_ready (self : t) : bool :=
  is_not_None (uart_rx_handle self) && is_not_None (uart_tx_handle self).

Definition is_lego_ready (self : t) : bool :=
  is_not_None (lego_value_handle self).

Definition is_connected (self : t) : bool :=
  is_not_None (conn_handle self) && bool_decide (state self = STATE_CONNECTED).

Definition has_discovery_handles (self : t) : bool :=
  is_not_None (start_handle self) && is_not_None (end_handle self).

Definition clear_connection (self : t) : t :=
  mk None (addr_type self) (addr self)
     (start_handle self) (end_handle self)
     (uart_rx_handle self) (uart_tx_handle self)
     (lego_value_handle self)
     (adv_type self) (name self) (services self) STATE_IDLE.

(** The names bound by the body of the class statement (lines 14 to 36 of
    the source file): the five state constants. The functions above are
    bound at module level, not here. *)
Definition class_body : list (string * Z) :=
  [("STATE_IDLE", STATE_IDLE); ("STATE_CONNECTING", STATE_CONNECTING);
   ("STATE_DISCOVERING", STATE_DISCOVERING); ("STATE_CONNECTED", STATE_CONNECTED);
   ("STATE_DISCONNECTING", STATE_DISCONNECTING)].

(** The data attributes that the functions of the module and the managers
    read and write on a context. None of them holds a callable. *)
Definition instance_attributes : list string :=
  ["conn_handle"; "addr_type"; "addr"; "start_handle"; "end_handle";
   "uart_rx_handle"; "uart_tx_handle"; "lego_value_handle";
   "adv_type"; "name"; "services"; "state"].

(** [self.name(...)] on an instance of the class: the name is looked up on
    the instance, then in the body of the class. What is found there is a
    number, a string, a list or [None], and calling it raises [TypeError]; a
    name that is found in neither place raises [AttributeError]. No call of
    this form can return. *)
Definition call_method {A : Type} (name : string) : outcome A :=
  if bool_decide (name ∈ instance_attributes) || bool_decide (name ∈ class_body.*1)
  then Raise "TypeError"
  else Raise "AttributeError".

End ConnectionContext.

(** ** The modules of the package *)

(** The integer globals of [_connection_context.py] (lines 9 to 11, and
    again 39 to 41). *)
Definition _connection_context : gmap string Z :=
  <["CONNECTING_NONE" := CONNECTING_NONE]>
    (<["CONNECTING_UART" := CONNECTING_UART]>
       (<["CONNECTING_LEGO" := CONNECTING_LEGO]> ∅)).

(** What [__import__] finds. The package calls itself [btbricks]:
    [_uart_manager.py] imports [btbricks.bt], and the five files import each
    other relatively, so that [_connection_context.py] is the module
    [btbricks._connection_context]. The four other files have no integer
    global. *)
Definition package : gmap string (gmap string Z) :=
  <["btbricks" := ∅]>
    (<["btbricks._callback_registry" := ∅]>
       (<["btbricks._connection_context" := _connection_context]>
          (<["btbricks._discovery_manager" := ∅]>
             (<["btbricks._lego_manager" := ∅]>
                (<["btbricks._uart_manager" := ∅]> ∅))))).

(** ** _callback_registry.py *)

Module CallbackRegistry.

Record t := mk {
  _write_callbacks : gmap (option Z) (option callback);
  _write_done_callbacks : gmap (option Z) (option callback);
  _notify_callbacks : gmap (option Z) (option callback);
  _disconn_callbacks : gmap (option Z) (option callback);
  _central_conn_callback : option callback;
  _central_disconn_callback : option callback;
  _scan_result_callback : option callback;
  _scan_done_callback : option callback;
  _char_result_callback : option callback
}.

Definition __init__ : t := mk ∅ ∅ ∅ ∅ None None None None None.

Definition on_write (self : t) (value_handle : option Z) (cb : option callback) : t :=
  mk (<[value_handle := cb]> (_write_callbacks self))
     (_write_done_callbacks self) (_notify_callbacks self) (_disconn_callbacks self)
     (_central_conn_callback self) (_central_disconn_callback self)
     (_scan_result_callback self) (_scan_done_callback self)
     (_char_result_callback self).

Definition on_write_done (self : t) (conn_handle : option Z) (cb : option callback) : t :=
  mk (_write_callbacks self)
     (<[conn_handle := cb]> (_write_done_callbacks self))
     (_notify_callbacks self) (_disconn_callbacks self)
     (_central_conn_callback self) (_central_disconn_callback self)
     (_scan_result_callback self) (_scan_done_callback self)
     (_char_result_callback self).

Definition on_notify (self : t) (conn_handle : option Z) (cb : option callback) : t :=
  mk (_write_callbacks self) (_write_done_callbacks self)
     (<[conn_handle := cb]> (_notify_callbacks self))
     (_disconn_callbacks self)
     (_central_conn_callback self) (_central_disconn_callback self)
     (_scan_result_callback self) (_scan_done_callback self)
     (_char_result_callback self).

Definition on_disconnect (self : t) (conn_handle : option Z) (cb : option callback) : t :=
  mk (_write_callbacks self) (_write_done_callbacks self) (_notify_callbacks self)
     (<[conn_handle := cb]> (_disconn_callbacks self))
     (_central_conn_callback self) (_central_disconn_callback self)
     (_scan_result_callback self) (_scan_done_callback self)
     (_char_result_callback self).

(** [d.get(k)]: the stored value, [None] when the key is missing. *)
Definition dict_get (d : gmap (option Z) (option callback)) (k : option Z) : option callback :=
  match d !! k with
  | Some v => v
  | None => None
  end.

(** [k in d]. *)
Definition dict_in (k : option Z) (d : gmap (option Z) (option callback)) : bool :=
  match d !! k with
  | Some _ => true
  | None => false
  end.

Definition get_write_callback (self : t) (value_handle : option Z) : option callback :=
  dict_get (_write_callbacks self) value_handle.

Definition get_write_done_callback (self : t) (conn_handle : option Z) : option callback :=
  dict_get (_write_done_callbacks self) conn_handle.

Definition get_notify_callback (self : t) (conn_handle : option Z) : option callback :=
  dict_get (_notify_callbacks self) conn_handle.

Definition get_disconnect_callback (self : t) (conn_handle : option Z) : option callback :=
  dict_get (_disconn_callbacks self) conn_handle.

Definition get_central_conn_callback (self : t) := _central_conn_callback self.
Definition get_central_disconn_callback (self : t) := _central_disconn_callback self.
Definition get_scan_result_callback (self : t) := _scan_result_callback self.
Definition get_scan_done_callback (self : t) := _scan_done_callback self.
Definition get_char_result_callback (self : t) := _char_result_callback self.

(** [d.pop(k, None)] removes the key when present and never raises. *)
Definition clear_connection (self : t) (conn_handle : option Z) : t :=
  mk (_write_callbacks self)
     (delete conn_handle (_write_done_callbacks self))
     (delete conn_handle (_notify_callbacks self))
     (delete conn_handle (_disconn_callbacks self))
     (_central_conn_callback self) (_central_disconn_callback self)
     (_scan_result_callback self) (_scan_done_callback self)
     (_char_result_callback self).

Definition clear_all (self : t) : t := mk ∅ ∅ ∅ ∅ None None None None None.

Definition has_callbacks (self : t) (conn_handle : option Z) : bool :=
  dict_in conn_handle (_write_done_callbacks self)
  || dict_in conn_handle (_notify_callbacks self)
  || dict_in conn_handle (_disconn_callbacks self).

End CallbackRegistry.

(** ** _discovery_manager.py *)

Module DiscoveryManager.

Record t := mk {
  _search_name : option string;
  _search_uuid : option UUID;
  mode : Z;
  _addr_type : option Z;
  _addr : option buffer;
  _adv_type : option Z;
  _name : option string;
  _services : option (list UUID);
  _scan_result_callback : option callback;
  _scan_done_callback : option callback
}.

(** A call of one of the two user callbacks, with its arguments. *)
Inductive invocation :=
| ScanResult (f : callback) (addr_type : Z) (addr : buffer)
             (name : string) (services : list UUID)
| ScanDone (f : callback) (found : bool).

Definition __init__ : t :=
  mk None None CONNECTING_NONE None None None None None None None.

Definition start_uart_discovery (self : t) (name : string)
    (callback_result callback_done : option callback) : t :=
  mk (Some name) (_search_uuid self) CONNECTING_UART None None
     (_adv_type self) (_name self) (_services self)
     callback_result callback_done.

Definition start_lego_discovery (self : t)
    (callback_result callback_done : option callback) : t :=
  mk (_search_name self) (_search_uuid self) CONNECTING_LEGO None None
     None None None
     callback_result callback_done.

Definition stop_discovery (self : t) : t :=
  mk (_search_name self) (_search_uuid self) CONNECTING_NONE
     (_addr_type self) (_addr self)
     (_adv_type self) (_name self) (_services self)
     None None.

(** The two mode tests are separate [if]s, not an [if]/[elif]. Each test
    reads [self.mode] and then evaluates
    [__import__("btbricks.btbricks._connection_context", fromlist=[""])] and
    takes the constant from the module it gets; this is done on every call,
    in every mode, before anything is compared or stored. [modules] is what
    [__import__] can find. The callback receives the caller's own [addr]
    object, not the copy. *)
Definition on_scan_result (modules : gmap string (gmap string Z)) (h : store) (self : t)
    (addr_type : Z) (addr : buffer) (name : string) (services : list UUID)
    (uart_uuid lego_uuid : UUID) : t * list invocation * outcome bool :=
  let matched := false in
  match PyImport.imported modules "btbricks.btbricks._connection_context" "CONNECTING_UART" with
  | Raise e => (self, [], Raise e)
  | Return connecting_uart =>
      let '(self, matched) :=
        if bool_decide (mode self = connecting_uart) then
          if bool_decide (Some name = _search_name self) && contains uart_uuid services then
            (mk (_search_name self) (_search_uuid self) (mode self)
                (Some addr_type) (Some (bytes h addr))
                (_adv_type self) (_name self) (_services self)
                (_scan_result_callback self) (_scan_done_callback self),
             true)
          else (self, matched)
        else (self, matched) in
      match PyImport.imported modules "btbricks.btbricks._connection_context" "CONNECTING_LEGO" with
      | Raise e => (self, [], Raise e)
      | Return connecting_lego =>
          let '(self, matched) :=
            if bool_decide (mode self = connecting_lego) then
              if contains lego_uuid services then
                (mk (_search_name self) (_search_uuid self) (mode self)
                    (Some addr_type) (Some (bytes h addr))
                    None (Some name) (Some services)
                    (_scan_result_callback self) (_scan_done_callback self),
                 true)
              else (self, matched)
            else (self, matched) in
          let calls :=
            match _scan_result_callback self with
            | Some f => [ScanResult f addr_type addr name services]
            | None => []
            end in
          (self, calls, Return matched)
      end
  end.

Definition on_scan_done (self : t) : t * list invocation * (bool * option string) :=
  let found := false in
  let info : option string := None in
  let '(found, info) :=
    if bool_decide (mode self = CONNECTING_UART) then
      let found := is_not_None (_addr_type self) in
      (found, if found then _search_name self else None)
    else if bool_decide (mode self = CONNECTING_LEGO) then
      let found := is_not_None (_addr_type self) in
      (found, if found then _name self else None)
    else (found, info) in
  let calls :=
    match _scan_done_callback self with
    | Some f => [ScanDone f found]
    | None => []
    end in
  (self, calls, (found, info)).

Definition get_discovered_address (self : t) : option Z * option buffer :=
  (_addr_type self, _addr self).

Definition is_discovering (self : t) : bool :=
  negb (bool_decide (mode self = CONNECTING_NONE)).

End DiscoveryManager.

(** ** The handler and the BLE stack, as the managers see them *)

(** The primitives of the stack object [_ble] that the managers call. Each
    may change the stack and may raise. [config_get_mtu] is [config("mtu")];
    it answers a number, or something that is not one. *)
Class BLE (B : Type) := {
  gap_disconnect : option Z -> B -> B * outcome unit;
  config_set_mtu : Z -> B -> B * outcome unit;
  gattc_exchange_mtu : option Z -> B -> B * outcome unit;
  config_get_mtu : B -> B * outcome (option Z)
}.

(** The attributes of the handler object that the managers touch.

    Modelled from the spec: the class of the handler is in [btbricks.bt],
    which is not among the source files. By section 4.4 of the specification
    the handler exposes the orchestrator-owned DiscoveryManager,
    ConnectionContext and CallbackRegistry: [_connection] is an instance of
    the class [ConnectionContext] of [_connection_context.py]. *)
Record BLEHandler (B : Type) := mkBLEHandler {
  _ble : B;
  _discovery : DiscoveryManager.t;
  _connection : ConnectionContext.t;
  _callbacks : CallbackRegistry.t;
  mtu : Z
}.
Arguments mkBLEHandler {B}.
Arguments _ble {B}.
Arguments _discovery {B}.
Arguments _connection {B}.
Arguments _callbacks {B}.
Arguments mtu {B}.

(** What else lies in [btbricks.bt]: the constant [TARGET_MTU], the methods
    [scan] and [print_log] of the handler, which may change the handler and
    may raise, and the event handlers that run while a manager sleeps: the
    [n]-th sleep lets [irq n] run on the handler. *)
Class Orchestrator (B : Type) := {
  TARGET_MTU : Z;
  scan : BLEHandler B -> BLEHandler B * outcome unit;
  print_log : BLEHandler B -> BLEHandler B * outcome unit;
  irq : nat -> BLEHandler B -> BLEHandler B
}.

(** What a manager does that is visible from outside. *)
Inductive event :=
| EvScan                               (* ble_handler.scan() *)
| EvPrintLog                           (* ble_handler.print_log() *)
| EvPrint (s : string)                 (* print(s) *)
| EvSleep (ms : Z)                     (* sleep_ms(ms) *)
| EvGapDisconnect (conn : option Z)
| EvConfigSetMtu (v : Z)
| EvExchangeMtu (conn : option Z)
| EvConfigGetMtu.

#[export] Instance event_eq_dec : EqDecision event.
Proof. solve_decision. Defined.

(** A manager object together with the handler it wraps, the events it has
    produced so far (oldest first) and the number of sleeps already taken. *)
Record State (B : Type) := mkState {
  ble_handler : BLEHandler B;
  is_connecting : bool;
  trace : list event;
  clock : nat
}.
Arguments mkState {B}.
Arguments ble_handler {B}.
Arguments is_connecting {B}.
Arguments trace {B}.
Arguments clock {B}.

(** ** Statements of a manager: state passing with exceptions

    An exception keeps the changes made before it was raised. *)

Module Exec.

Definition M (B A : Type) : Type := State B -> State B * outcome A.

Definition ret {B A} (a : A) : M B A := fun s => (s, Return a).

Definition bind {B A C} (m : M B A) (k : A -> M B C) : M B C :=
  fun s =>
    match m s with
    | (s', Return a) => k a s'
    | (s', Raise e) => (s', Raise e)
    end.

(** [try: m except: handler] with a bare [except]. *)
Definition try_except {B A} (m : M B A) (handler : M B A) : M B A :=
  fun s =>
    match m s with
    | (s', Return a) => (s', Return a)
    | (s', Raise _) => handler s'
    end.

Definition raise {B A} (e : string) : M B A := fun s => (s, Raise e).

Definition get {B} : M B (State B) := fun s => (s, Return s).

(** [print(...)]. *)
Definition emit {B} (e : event) : M B unit :=
  fun s => (mkState (ble_handler s) (is_connecting s) (trace s ++ [e]) (clock s),
            Return tt).

Definition set_is_connecting {B} (b : bool) : M B unit :=
  fun s => (mkState (ble_handler s) b (trace s) (clock s), Return tt).

Definition modify_handler {B} (f : BLEHandler B -> BLEHandler B) : M B unit :=
  fun s => (mkState (f (ble_handler s)) (is_connecting s) (trace s) (clock s),
            Return tt).

Definition modify_discovery {B} (f : DiscoveryManager.t -> DiscoveryManager.t) : M B unit :=
  modify_handler (fun h =>
    mkBLEHandler (_ble h) (f (_discovery h)) (_connection h) (_callbacks h) (mtu h)).

Definition modify_callbacks {B} (f : CallbackRegistry.t -> CallbackRegistry.t) : M B unit :=
  modify_handler (fun h =>
    mkBLEHandler (_ble h) (_discovery h) (_connection h) (f (_callbacks h)) (mtu h)).

(** [self.ble_handler._callbacks.on_x(self.ble_handler._connection.conn_handle, cb)] *)
Definition register_on_conn {B}
    (on_x : CallbackRegistry.t -> option Z -> option callback -> CallbackRegistry.t)
    (cb : option callback) : M B unit :=
  modify_handler (fun h =>
    mkBLEHandler (_ble h) (_discovery h) (_connection h)
                 (on_x (_callbacks h) (ConnectionContext.conn_handle (_connection h)) cb)
                 (mtu h)).

Definition set_mtu {B} (v : Z) : M B unit :=
  modify_handler (fun h =>
    mkBLEHandler (_ble h) (_discovery h) (_connection h) (_callbacks h) v).

(** [self.ble_handler._connection.name(...)]: a method call on the context
    object. *)
Definition context_method {B A} (name : string) : M B A :=
  fun s => (s, ConnectionContext.call_method name).

(** A call of a primitive of [_ble]. *)
Definition ble_call {B A} (e : event) (f : B -> B * outcome A) : M B A :=
  fun s =>
    let h := ble_handler s in
    let '(b', r) := f (_ble h) in
    (mkState (mkBLEHandler b' (_discovery h) (_connection h) (_callbacks h) (mtu h))
             (is_connecting s) (trace s ++ [e]) (clock s),
     r).

(** A call of a method of the handler itself. *)
Definition handler_call {B} (e : event)
    (f : BLEHandler B -> BLEHandler B * outcome unit) : M B unit :=
  fun s =>
    let '(h', r) := f (ble_handler s) in
    (mkState h' (is_connecting s) (trace s ++ [e]) (clock s), r).

(** The handler after the events of the [n]-th sleep were handled. *)
Definition deliver {B} `{Orchestrator B} (n : nat) (h : BLEHandler B) : BLEHandler B :=
  irq n h.

(** [sleep_ms(ms)]: pending events are handled while the caller sleeps. *)
Definition sleep_ms {B} `{Orchestrator B} (ms : Z) : M B unit :=
  fun s =>
    (mkState (deliver (clock s) (ble_handler s))
             (is_connecting s) (trace s ++ [EvSleep ms]) (S (clock s)),
     Return tt).

(** [for i in l: body], where [body] answers [true] when it reaches
    [break]. *)
Fixpoint for_break {B A} (body : A -> M B bool) (l : list A) : M B unit :=
  match l with
  | [] => ret tt
  | i :: l' =>
      bind (body i) (fun stop => if stop then ret tt else for_break body l')
  end.

(** [if c: m]. *)
Definition when {B} (c : bool) (m : M B unit) : M B unit :=
  if c then m else ret tt.

End Exec.

Declare Scope exec_scope.
Delimit Scope exec_scope with exec.
Notation "x <- m ;; k" := (Exec.bind m (fun x => k))
  (at level 100, m at next level, right associativity) : exec_scope.
Notation "m ;; k" := (Exec.bind m (fun _ => k))
  (at level 100, right associativity) : exec_scope.

(** ** _uart_manager.py *)

Module UARTConnectionManager.
Section with_stack.
Context {B : Type} `{BLE B} `{Orchestrator B}.
Import Exec.
Open Scope exec_scope.

(** The progress line of one polling tick. *)
Definition progress (name : string) (i timeout : Z) : string :=
  "[UART] Connecting to " +:+ name +:+ "... (" +:+ pretty (i + 1) +:+ "/"
    +:+ pretty timeout +:+ "s)".

(** The body of the [try] in [_negotiate_mtu]. It assigns
    [ble_handler.mtu] in its last statement only; [config("mtu") - 4]
    raises when the answer is not a number. *)
Definition mtu_exchange (conn_handle : option Z) : M B unit :=
  ble_call (EvConfigSetMtu TARGET_MTU) (config_set_mtu TARGET_MTU);;
  ble_call (EvExchangeMtu conn_handle) (gattc_exchange_mtu conn_handle);;
  sleep_ms 60;;
  v <- ble_call EvConfigGetMtu config_get_mtu;;
  match v with
  | Some n => set_mtu (n - 4)
  | None => raise "TypeError"
  end.

Definition _negotiate_mtu : M B unit :=
  s <- get;;
  let conn_handle := ConnectionContext.conn_handle (_connection (ble_handler s)) in
  try_except (mtu_exchange conn_handle) (ret tt).

(** One iteration of the wait loop, up to and including the sleep. *)
Definition tick (name : string) (timeout : Z) (debug : bool) (i : Z) : M B unit :=
  (if debug then handler_call EvPrintLog print_log
   else emit (EvPrint (progress name i timeout)));;
  sleep_ms 1000.

(** The test that ends an iteration: [true] is [break]. *)
Definition resolved : M B bool :=
  s <- get;;
  ret (bool_decide (DiscoveryManager.mode (_discovery (ble_handler s)) = CONNECTING_NONE)).

(** The statements of [connect] before its loop. [reset] is called as a
    method of the context. *)
Definition start (name : string) : M B unit :=
  set_is_connecting true;;
  modify_discovery (fun d => DiscoveryManager.start_uart_discovery d name None None);;
  (context_method "reset" : M B unit);;
  handler_call EvScan scan.

(** The wait loop of [connect]. *)
Definition wait (name : string) (timeout : Z) (debug : bool) : M B unit :=
  for_break (fun i => tick name timeout debug i;; resolved) (range timeout).

(** The three guarded registrations of [connect]. *)
Definition register_callbacks (on_disconnect on_notify on_write_done : option callback)
    : M B unit :=
  when (truthy on_notify)
       (register_on_conn CallbackRegistry.on_notify on_notify);;
  when (truthy on_disconnect)
       (register_on_conn CallbackRegistry.on_disconnect on_disconnect);;
  when (truthy on_write_done)
       (register_on_conn CallbackRegistry.on_write_done on_write_done).

(** [is_uart_ready] is called as a method of the context. *)
Definition connect (name : string)
    (on_disconnect on_notify on_write_done : option callback)
    (timeout : Z) (debug : bool) : M B (option Z * option Z * option Z) :=
  start name;;
  wait name timeout debug;;
  ready <- (context_method "is_uart_ready" : M B bool);;
  result <-
    (if ready then
       register_callbacks on_disconnect on_notify on_write_done;;
       _negotiate_mtu;;
       s <- get;;
       let c := _connection (ble_handler s) in
       ret (ConnectionContext.conn_handle c,
            ConnectionContext.uart_rx_handle c,
            ConnectionContext.uart_tx_handle c)
     else ret (None, None, None));;
  modify_discovery DiscoveryManager.stop_discovery;;
  set_is_connecting false;;
  ret result.

Definition on_notify (conn_handle : option Z) (cb : option callback) : M B unit :=
  modify_callbacks (fun r => CallbackRegistry.on_notify r conn_handle cb).

Definition on_disconnect (conn_handle : option Z) (cb : option callback) : M B unit :=
  modify_callbacks (fun r => CallbackRegistry.on_disconnect r conn_handle cb).

Definition on_write_done (conn_handle : option Z) (cb : option callback) : M B unit :=
  modify_callbacks (fun r => CallbackRegistry.on_write_done r conn_handle cb).

(** [clear_connection] of the registry is a method of its class;
    [clear_connection] of the context is called as a method of the
    context. *)
Definition disconnect (conn_handle : option Z) : M B unit :=
  when (is_not_None conn_handle)
    (try_except
       (ble_call (EvGapDisconnect conn_handle) (gap_disconnect conn_handle))
       (ret tt);;
     modify_callbacks (fun r => CallbackRegistry.clear_connection r conn_handle);;
     (context_method "clear_connection" : M B unit)).

End with_stack.
End UARTConnectionManager.

(** ** _lego_manager.py *)

Module LEGOConnectionManager.
Section with_stack.
Context {B : Type} `{BLE B} `{Orchestrator B}.
Import Exec.
Open Scope exec_scope.

Definition progress (i timeout : Z) : string :=
  "[LEGO] Searching for hub... (" +:+ pretty (i + 1) +:+ "/"
    +:+ pretty timeout +:+ "s)".

(** [f"{name}"] for a name that may be [None]. *)
Definition format_name (name : option string) : string :=
  match name with
  | Some n => n
  | None => "None"
  end.

(** Truthiness of a handle: [None] and [0] are falsy. *)
Definition handle_truthy (conn_handle : option Z) : bool :=
  match conn_handle with
  | Some z => negb (bool_decide (z = 0))
  | None => false
  end.

Definition tick (timeout : Z) (debug : bool) (i : Z) : M B unit :=
  (if debug then handler_call EvPrintLog print_log
   else emit (EvPrint (progress i timeout)));;
  sleep_ms 1000.

Definition resolved : M B bool :=
  s <- get;;
  ret (bool_decide (DiscoveryManager.mode (_discovery (ble_handler s)) = CONNECTING_NONE)).

(** The statements of [connect] before its loop. [reset] is called as a
    method of the context. *)
Definition start : M B unit :=
  set_is_connecting true;;
  modify_discovery (fun d => DiscoveryManager.start_lego_discovery d None None);;
  (context_method "reset" : M B unit);;
  handler_call EvScan scan.

(** The wait loop of [connect]. *)
Definition wait (timeout : Z) (debug : bool) : M B unit :=
  for_break (fun i => tick timeout debug i;; resolved) (range timeout).

(** The conditional expression evaluates its test, the method call
    [is_lego_ready()], before the handle. *)
Definition connect (timeout : Z) (debug : bool) : M B (option Z) :=
  start;;
  wait timeout debug;;
  ready <- (context_method "is_lego_ready" : M B bool);;
  s <- get;;
  let conn_handle :=
    if ready
    then ConnectionContext.conn_handle (_connection (ble_handler s))
    else None in
  modify_discovery DiscoveryManager.stop_discovery;;
  set_is_connecting false;;
  when (handle_truthy conn_handle)
       (s <- get;;
        emit (EvPrint ("[LEGO] Connected: "
                       +:+ format_name (ConnectionContext.name (_connection (ble_handler s))))));;
  ret conn_handle.

Definition on_notify (conn_handle : option Z) (cb : option callback) : M B unit :=
  modify_callbacks (fun r => CallbackRegistry.on_notify r conn_handle cb).

Definition on_disconnect (conn_handle : option Z) (cb : option callback) : M B unit :=
  modify_callbacks (fun r => CallbackRegistry.on_disconnect r conn_handle cb).

Definition disconnect (conn_handle : option Z) : M B unit :=
  when (is_not_None conn_handle)
    (try_except
       (ble_call (EvGapDisconnect conn_handle) (gap_disconnect conn_handle))
       (ret tt);;
     modify_callbacks (fun r => CallbackRegistry.clear_connection r conn_handle);;
     (context_method "clear_connection" : M B unit)).

(** [if name: return name], then [return None]: the empty name is falsy.
    [name] is read as an attribute of the context. *)
Definition get_hub_name (conn_handle : option Z) : M B (option string) :=
  s <- get;;
  match ConnectionContext.name (_connection (ble_handler s)) with
  | Some n => if bool_decide (n = "") then ret None else ret (Some n)
  | None => ret None
  end.

End with_stack.
End LEGOConnectionManager.

(** ** Concrete stacks, handlers and advertisements

    Used to run the definitions on the scenarios of the specification. *)

Module Scenario.

Definition UART_UUID : UUID := UUID128 "6E400001-B5A3-F393-E0A9-E50E24DCCA9E".
Definition HUB_UUID : UUID := UUID128 "00001623-1212-EFDE-1623-785FEABCD123".

(** A store whose buffer 0 holds a six-byte address and whose other
    buffers are empty. *)
Definition radio_buffers : store :=
  fun l => match l with
           | O => [x01; x02; x03; x04; x05; x06]
           | _ => []
           end.

(** A stack whose primitives all succeed and that reports an MTU of 188. *)
Definition stack_ok : BLE unit := {|
  gap_disconnect _ b := (b, Return tt);
  config_set_mtu _ b := (b, Return tt);
  gattc_exchange_mtu _ b := (b, Return tt);
  config_get_mtu b := (b, Return (Some 188))
|}.

(** A stack whose primitives all raise. *)
Definition stack_failing : BLE unit := {|
  gap_disconnect _ b := (b, Raise "OSError");
  config_set_mtu _ b := (b, Raise "OSError");
  gattc_exchange_mtu _ b := (b, Raise "OSError");
  config_get_mtu b := (b, Raise "OSError")
|}.

(** A stack that accepts the MTU request and then fails the exchange. *)
Definition stack_no_exchange : BLE unit := {|
  gap_disconnect _ b := (b, Return tt);
  config_set_mtu _ b := (b, Return tt);
  gattc_exchange_mtu _ b := (b, Raise "OSError");
  config_get_mtu b := (b, Return (Some 188))
|}.

(** A handler whose [scan] and [print_log] succeed and on which no event
    ever arrives. *)
Definition quiet : Orchestrator unit := {|
  TARGET_MTU := 184;
  scan h := (h, Return tt);
  print_log h := (h, Return tt);
  irq _ h := h
|}.

(** A freshly built handler with a default MTU of 20, wrapped by a fresh
    manager. *)
Definition fresh : State unit :=
  mkState (mkBLEHandler tt DiscoveryManager.__init__ ConnectionContext.__init__
                        CallbackRegistry.__init__ 20)
          false [] 0%nat.

(** A handler whose context describes the hub "Hub42" on connection 7, with
    the hub characteristic at handle 14, and whose registry holds a notify
    callback for connection 7 and a write callback for value handle 14. *)
Definition hub_linked : State unit :=
  mkState
    (mkBLEHandler tt DiscoveryManager.__init__
       (ConnectionContext.set_lego_handle
          (ConnectionContext.set_discovery_data
             (ConnectionContext.set_connection_info radio_buffers
                ConnectionContext.__init__ (Some 7) (Some 0) (Some (BufRef 0%nat)))
             None (Some "Hub42") (Some [HUB_UUID]))
          (Some 14))
       (CallbackRegistry.on_write
          (CallbackRegistry.on_notify CallbackRegistry.__init__ (Some 7) (Some 2%nat))
          (Some 14) (Some 9%nat))
       20)
    false [] 0%nat.

(** A handler whose context describes a UART peripheral on connection 3
    with rx handle 12 and tx handle 15. *)
Definition robot_linked : State unit :=
  mkState
    (mkBLEHandler tt DiscoveryManager.__init__
       (ConnectionContext.set_uart_handles
          (ConnectionContext.set_connection_info radio_buffers
             ConnectionContext.__init__ (Some 3) (Some 1) (Some (BufRef 0%nat)))
          (Some 12) (Some 15))
       CallbackRegistry.__init__ 20)
    false [] 0%nat.

(** The package made importable a second time under the doubled name, as
    happens when the directory above the package is itself found as a
    package called [btbricks]. *)
Definition package_with_alias : gmap string (gmap string Z) :=
  <["btbricks.btbricks._connection_context" := _connection_context]> package.

End Scenario.

(** ** Sequences of calls on the discovery manager and on the context *)

Module Calls.

(** One advertisement as it is handed to [on_scan_result], together with
    the store as it is at that moment. *)
Record advertisement := mkAdv {
  adv_store : store;
  adv_addr_type : Z;
  adv_addr : buffer;
  adv_name : string;
  adv_services : list UUID
}.

(** The manager after [on_scan_result] was called for [a], in the package
    as it is: when the call raises, the manager is what the call left. *)
Definition scan (uart_uuid lego_uuid : UUID)
    (self : DiscoveryManager.t) (a : advertisement) : DiscoveryManager.t :=
  (DiscoveryManager.on_scan_result package (adv_store a) self (adv_addr_type a)
     (adv_addr a) (adv_name a) (adv_services a) uart_uuid lego_uuid).1.1.

(** The calls a user of [DiscoveryManager] can make. *)
Inductive discovery_call :=
| CallStartUart (name : string) (callback_result callback_done : option callback)
| CallStartLego (callback_result callback_done : option callback)
| CallStop
| CallScanResult (a : advertisement) (uart_uuid lego_uuid : UUID)
| CallScanDone.

Definition discovery_step (self : DiscoveryManager.t) (c : discovery_call)
    : DiscoveryManager.t :=
  match c with
  | CallStartUart name cr cd => DiscoveryManager.start_uart_discovery self name cr cd
  | CallStartLego cr cd => DiscoveryManager.start_lego_discovery self cr cd
  | CallStop => DiscoveryManager.stop_discovery self
  | CallScanResult a uart_uuid lego_uuid => scan uart_uuid lego_uuid self a
  | CallScanDone => (DiscoveryManager.on_scan_done self).1.1
  end.

(** The manager after the calls of [l], made in order on a new manager. *)
Definition discovery_run (l : list discovery_call) : DiscoveryManager.t :=
  fold_left discovery_step l DiscoveryManager.__init__.

(** What every manager built by calls alone satisfies. *)
Definition discovery_ok (d : DiscoveryManager.t) : Prop :=
  (DiscoveryManager.mode d = CONNECTING_NONE ∨
   DiscoveryManager.mode d = CONNECTING_UART ∨
   DiscoveryManager.mode d = CONNECTING_LEGO) ∧
  (DiscoveryManager.mode d = CONNECTING_NONE ->
   DiscoveryManager._scan_result_callback d = None ∧
   DiscoveryManager._scan_done_callback d = None) ∧
  (DiscoveryManager.mode d = CONNECTING_UART ->
   DiscoveryManager._search_name d ≠ None) ∧
  DiscoveryManager._addr_type d = None ∧
  DiscoveryManager._addr d = None ∧
  DiscoveryManager._name d = None ∧
  DiscoveryManager._services d = None ∧
  DiscoveryManager._adv_type d = None ∧
  DiscoveryManager._search_uuid d = None.

(** The calls a user of the context can make. *)
Inductive context_call :=
| CallReset
| CallSetConnectionInfo (h : store) (conn_handle addr_type : option Z) (addr : option buffer)
| CallSetDiscoveryHandles (start_handle end_handle : option Z)
| CallSetUartHandles (rx_handle tx_handle : option Z)
| CallSetLegoHandle (value_handle : option Z)
| CallSetDiscoveryData (adv_type : option Z) (name : option string)
                       (services : option (list UUID))
| CallClearConnection.

Definition context_step (self : ConnectionContext.t) (c : context_call)
    : ConnectionContext.t :=
  match c with
  | CallReset => ConnectionContext.reset self
  | CallSetConnectionInfo h conn ty a => ConnectionContext.set_connection_info h self conn ty a
  | CallSetDiscoveryHandles s e => ConnectionContext.set_discovery_handles self s e
  | CallSetUartHandles rx tx => ConnectionContext.set_uart_handles self rx tx
  | CallSetLegoHandle v => ConnectionContext.set_lego_handle self v
  | CallSetDiscoveryData adv name services =>
      ConnectionContext.set_discovery_data self adv name services
  | CallClearConnection => ConnectionContext.clear_connection self
  end.

(** The context after the calls of [l], made in order on a new context. *)
Definition context_run (l : list context_call) : ConnectionContext.t :=
  fold_left context_step l ConnectionContext.__init__.

End Calls.
(** * Properties *)

(** ** Python membership *)

Lemma contains_elem_of {A} `{EqDecision A} (x : A) (l : list A) :
  contains x l = true <-> x ∈ l.
Proof.
  induction l as [|y l IH]; simpl.
  - split; [discriminate | intros Hx; inversion Hx].
  - destruct (decide (x = y)) as [->|Hne].
    + split; [intros _; left | reflexivity].
    + rewrite IH. split; [apply list_elem_of_further |].
      intros Hx. apply elem_of_cons in Hx as [Heq|Hin]; [contradiction | exact Hin].
Qed.

Lemma contains_false {A} `{EqDecision A} (x : A) (l : list A) :
  contains x l = false <-> x ∉ l.
Proof.
  rewrite <- contains_elem_of. destruct (contains x l); split; congruence.
Qed.

(** ** DiscoveryManager *)

Section discovery.
Import DiscoveryManager.

(** The package has no module of that name: [_connection_context.py] is
    [btbricks._connection_context]. *)
Lemma package_has_no_alias : package !! "btbricks.btbricks._connection_context"%string = None.
Proof. reflexivity. Qed.

Lemma package_has_connection_context :
  package !! "btbricks._connection_context"%string = Some _connection_context.
Proof. reflexivity. Qed.

Lemma imported_unresolved (modules : gmap string (gmap string Z)) (name attribute : string) :
  modules !! name = None ->
  PyImport.imported modules name attribute = Raise "ModuleNotFoundError".
Proof.
  intros Hnone. unfold PyImport.imported, PyImport.__import__. by rewrite Hnone.
Qed.

Lemma imported_resolved (modules : gmap string (gmap string Z)) (name : string) :
  modules !! name = Some _connection_context ->
  PyImport.imported modules name "CONNECTING_UART" = Return CONNECTING_UART ∧
  PyImport.imported modules name "CONNECTING_LEGO" = Return CONNECTING_LEGO.
Proof.
  intros Hsome. unfold PyImport.imported, PyImport.__import__. rewrite Hsome.
  split; reflexivity.
Qed.

(** When the import fails, [on_scan_result] raises at its first test, in
    every mode: nothing is compared, nothing is stored, no callback is
    called. *)
Lemma on_scan_result_unresolved (modules : gmap string (gmap string Z))
    h self addr_type addr name services uart_uuid lego_uuid :
  modules !! "btbricks.btbricks._connection_context"%string = None ->
  on_scan_result modules h self addr_type addr name services uart_uuid lego_uuid
  = (self, [], Raise "ModuleNotFoundError").
Proof.
  intros Hnone. unfold on_scan_result.
  by rewrite (imported_unresolved modules _ _ Hnone).
Qed.

(** What the two branches of [on_scan_result] do once they are reached,
    that is under a table of modules in which the doubled name leads to
    [_connection_context]. *)
Lemma on_scan_result_uart_if_resolved (modules : gmap string (gmap string Z))
    (h : store) (self : t) (S : string)
    (addr_type : Z) (addr : buffer) (name : string) (services : list UUID)
    (uart_uuid lego_uuid : UUID) :
  modules !! "btbricks.btbricks._connection_context"%string = Some _connection_context ->
  mode self = CONNECTING_UART ->
  _search_name self = Some S ->
  let r := on_scan_result modules h self addr_type addr name services uart_uuid lego_uuid in
  (∃ b, r.2 = Return b) ∧
  (r.2 = Return true <-> name = S ∧ uart_uuid ∈ services) ∧
  (r.2 = Return true ->
     get_discovered_address r.1.1 = (Some addr_type, Some (Bytes (contents h addr)))).
Proof.
  intros Hres Hmode Hname r. subst r. unfold on_scan_result.
  destruct (imported_resolved modules _ Hres) as [-> ->].
  destruct self; simpl in *; subst. simpl.
  destruct (contains uart_uuid services) eqn:Hin.
  - apply contains_elem_of in Hin.
    case_bool_decide as Hn; simpl.
    + split; [eexists; reflexivity|]. split; [|intros _; reflexivity].
      split; [intros _; split; [congruence | exact Hin] | reflexivity].
    + split; [eexists; reflexivity|]. split; [|discriminate].
      split; [discriminate | intros [-> _]; contradiction].
  - apply contains_false in Hin. rewrite andb_false_r. simpl.
    split; [eexists; reflexivity|]. split; [|discriminate].
    split; [discriminate | intros [_ Hin']; contradiction].
Qed.

Lemma on_scan_result_lego_if_resolved (modules : gmap string (gmap string Z))
    (h : store) (self : t)
    (addr_type : Z) (addr : buffer) (name : string) (services : list UUID)
    (uart_uuid lego_uuid : UUID) :
  modules !! "btbricks.btbricks._connection_context"%string = Some _connection_context ->
  mode self = CONNECTING_LEGO ->
  let r := on_scan_result modules h self addr_type addr name services uart_uuid lego_uuid in
  (∃ b, r.2 = Return b) ∧
  (r.2 = Return true <-> lego_uuid ∈ services) ∧
  (r.2 = Return true ->
     _addr_type r.1.1 = Some addr_type ∧
     _addr r.1.1 = Some (Bytes (contents h addr)) ∧
     _name r.1.1 = Some name ∧
     _services r.1.1 = Some services).
Proof.
  intros Hres Hmode r. subst r. unfold on_scan_result.
  destruct (imported_resolved modules _ Hres) as [-> ->].
  destruct self; simpl in *; subst. simpl.
  destruct (contains lego_uuid services) eqn:Hin; simpl.
  - apply contains_elem_of in Hin.
    split; [eexists; reflexivity|].
    split; [split; [intros _; exact Hin | reflexivity] |].
    intros _. repeat split.
  - apply contains_false in Hin.
    split; [eexists; reflexivity|].
    split; [split; [discriminate | intros Hin'; contradiction] | discriminate].
Qed.

(** C1, where the code departs from the claim. In a UART session with
    search name [S], in the package as it is, [on_scan_result] raises
    [ModuleNotFoundError] for every advertisement, the one with the name [S]
    and the UART service included: it does not return [True], it calls no
    callback, and it leaves the manager as it was, so that
    [get_discovered_address] answers what it answered before. The module
    name it imports, [btbricks.btbricks._connection_context], is not a
    module of the package; [on_scan_done] imports the same constants from
    [._connection_context]. *)
Theorem on_scan_result_uart_raises (h : store) (self : t) (S : string)
    (addr_type : Z) (addr : buffer) (name : string) (services : list UUID)
    (uart_uuid lego_uuid : UUID) :
  mode self = CONNECTING_UART ->
  _search_name self = Some S ->
  let r := on_scan_result package h self addr_type addr name services uart_uuid lego_uuid in
  r.2 = Raise "ModuleNotFoundError" ∧
  r.2 ≠ Return true ∧
  r.1.2 = [] ∧
  r.1.1 = self ∧
  get_discovered_address r.1.1 = get_discovered_address self.
Proof.
  intros _ _ r. subst r.
  rewrite (on_scan_result_unresolved package _ _ _ _ _ _ _ _ package_has_no_alias).
  repeat split. discriminate.
Qed.

(** C2, where the code departs from the claim. In a hub session, in the
    package as it is, [on_scan_result] raises [ModuleNotFoundError] for
    every advertisement, those carrying the hub service included, at the
    import of its first test: it does not return [True], and address type,
    address, name and services of the session stay what they were. This is
    the defect of C1. *)
Theorem on_scan_result_lego_raises (h : store) (self : t)
    (addr_type : Z) (addr : buffer) (name : string) (services : list UUID)
    (uart_uuid lego_uuid : UUID) :
  mode self = CONNECTING_LEGO ->
  let r := on_scan_result package h self addr_type addr name services uart_uuid lego_uuid in
  r.2 = Raise "ModuleNotFoundError" ∧
  r.2 ≠ Return true ∧
  r.1.2 = [] ∧
  _addr_type r.1.1 = _addr_type self ∧
  _addr r.1.1 = _addr self ∧
  _name r.1.1 = _name self ∧
  _services r.1.1 = _services self.
Proof.
  intros _ r. subst r.
  rewrite (on_scan_result_unresolved package _ _ _ _ _ _ _ _ package_has_no_alias).
  repeat split. discriminate.
Qed.

(** C10. With no session active, [on_scan_done] returns [(False, None)];
    a scan-done callback that is still installed is called once, with
    [False], and no callback is called otherwise. The session is not
    changed. *)
Theorem on_scan_done_idle (self : t) :
  mode self = CONNECTING_NONE ->
  (on_scan_done self).2 = (false, None) ∧
  (∀ f, _scan_done_callback self = Some f ->
        (on_scan_done self).1.2 = [ScanDone f false]) ∧
  (_scan_done_callback self = None -> (on_scan_done self).1.2 = []) ∧
  (on_scan_done self).1.1 = self.
Proof.
  intros Hmode.
  destruct self; simpl in *; subst. unfold on_scan_done; simpl.
  repeat split.
  - intros f Hf. rewrite Hf. reflexivity.
  - intros Hf. rewrite Hf. reflexivity.
Qed.

End discovery.

(** Scenario A of the specification on the code, through
    [on_scan_result_uart_raises]: a session searching for "robot" is handed
    the matching advertisement; the call raises and no address is
    recorded. *)
Lemma on_scan_result_uart_raises_witness :
  let self := DiscoveryManager.start_uart_discovery DiscoveryManager.__init__ "robot" None None in
  let r := DiscoveryManager.on_scan_result package Scenario.radio_buffers self 1
             (Bytes [x01; x02; x03; x04; x05; x06]) "robot"
             [Scenario.UART_UUID] Scenario.UART_UUID Scenario.HUB_UUID in
  DiscoveryManager.mode self = CONNECTING_UART ∧
  DiscoveryManager._search_name self = Some "robot" ∧
  r.2 = Raise "ModuleNotFoundError" ∧
  DiscoveryManager.get_discovered_address r.1.1 = (None, None).
Proof.
  intros self r.
  destruct (on_scan_result_uart_raises Scenario.radio_buffers self "robot" 1
              (Bytes [x01; x02; x03; x04; x05; x06]) "robot"
              [Scenario.UART_UUID] Scenario.UART_UUID Scenario.HUB_UUID
              eq_refl eq_refl) as (Hraise & _ & _ & _ & Haddr).
  split; [reflexivity | split; [reflexivity | split; [exact Hraise|]]].
  etransitivity; [exact Haddr | reflexivity].
Defined.

(** Scenario C of the specification on the code, through
    [on_scan_result_lego_raises]: a hub session is handed an advertisement
    carrying the hub service; the call raises and nothing is recorded. *)
Lemma on_scan_result_lego_raises_witness :
  let self := DiscoveryManager.start_lego_discovery DiscoveryManager.__init__ None None in
  let r := DiscoveryManager.on_scan_result package Scenario.radio_buffers self 0
             (Bytes [xaa; xaa; xaa; xaa; xaa; xaa]) "AnyName"
             [Scenario.HUB_UUID] Scenario.UART_UUID Scenario.HUB_UUID in
  DiscoveryManager.mode self = CONNECTING_LEGO ∧
  r.2 = Raise "ModuleNotFoundError" ∧
  DiscoveryManager._addr_type r.1.1 = None ∧
  DiscoveryManager._name r.1.1 = None.
Proof.
  intros self r.
  destruct (on_scan_result_lego_raises Scenario.radio_buffers self 0
              (Bytes [xaa; xaa; xaa; xaa; xaa; xaa]) "AnyName"
              [Scenario.HUB_UUID] Scenario.UART_UUID Scenario.HUB_UUID
              eq_refl) as (Hraise & _ & _ & Hty & _ & Hnm & _).
  split; [reflexivity | split; [exact Hraise | split]].
  - etransitivity; [exact Hty | reflexivity].
  - etransitivity; [exact Hnm | reflexivity].
Defined.

(** The same two calls where the doubled module name does lead to
    [_connection_context]: there the matching logic is reached and does what
    the specification says. *)
Example on_scan_result_under_alias :
  let u := DiscoveryManager.on_scan_result Scenario.package_with_alias Scenario.radio_buffers
             (DiscoveryManager.start_uart_discovery DiscoveryManager.__init__ "robot" None None)
             1 (Bytes [x01; x02; x03; x04; x05; x06]) "robot"
             [Scenario.UART_UUID] Scenario.UART_UUID Scenario.HUB_UUID in
  let l := DiscoveryManager.on_scan_result Scenario.package_with_alias Scenario.radio_buffers
             (DiscoveryManager.start_lego_discovery DiscoveryManager.__init__ None None)
             0 (Bytes [xaa; xaa; xaa; xaa; xaa; xaa]) "AnyName"
             [Scenario.HUB_UUID] Scenario.UART_UUID Scenario.HUB_UUID in
  (u.2 = Return true ∧
   DiscoveryManager.get_discovered_address u.1.1
     = (Some 1, Some (Bytes [x01; x02; x03; x04; x05; x06]))) ∧
  (l.2 = Return true ∧ DiscoveryManager._name l.1.1 = Some "AnyName").
Proof. vm_compute. repeat split. Qed.

(** [on_scan_done_idle] on a manager whose [mode] attribute was set back to
    [CONNECTING_NONE] directly, with the scan-done callback 5 of the
    interrupted session still installed. *)
Lemma on_scan_done_idle_witness :
  let self := DiscoveryManager.mk (Some "robot") None CONNECTING_NONE (Some 1)
                (Some (Bytes [x01])) None None None None (Some 5%nat) in
  DiscoveryManager.mode self = CONNECTING_NONE ∧
  (DiscoveryManager.on_scan_done self).2 = (false, None) ∧
  (DiscoveryManager.on_scan_done self).1.2 = [DiscoveryManager.ScanDone 5%nat false].
Proof.
  intros self.
  destruct (on_scan_done_idle self eq_refl) as (Hr & Hcall & _ & _).
  split; [reflexivity | split; [exact Hr | exact (Hcall 5%nat eq_refl)]].
Defined.

(** ** CallbackRegistry *)

Section registry.
Import CallbackRegistry.

Lemma dict_in_delete_eq (d : gmap (option Z) (option callback)) (k : option Z) :
  dict_in k (delete k d) = false.
Proof. unfold dict_in. by rewrite lookup_delete_eq. Qed.

Lemma dict_in_delete_ne (d : gmap (option Z) (option callback)) (k k' : option Z) :
  k ≠ k' -> dict_in k' (delete k d) = dict_in k' d.
Proof. intros Hne. unfold dict_in. by rewrite lookup_delete_ne. Qed.

Lemma dict_get_delete_ne (d : gmap (option Z) (option callback)) (k k' : option Z) :
  k ≠ k' -> dict_get (delete k d) k' = dict_get d k'.
Proof. intros Hne. unfold dict_get. by rewrite lookup_delete_ne. Qed.

(** C4. After [clear_connection(h)] the write-done, notify and disconnect
    dictionaries have no entry for [h] and [has_callbacks(h)] is false. The
    dictionary of write callbacks, keyed by value handle, is the same
    dictionary as before; the entries of every other connection handle, and
    what [has_callbacks] and the getters answer for it, are unchanged; the
    five singleton callbacks are unchanged. *)
Theorem clear_connection_frame (self : t) (h : option Z) :
  let self' := clear_connection self h in
  (_write_done_callbacks self' !! h = None ∧
   _notify_callbacks self' !! h = None ∧
   _disconn_callbacks self' !! h = None ∧
   has_callbacks self' h = false) ∧
  (_write_callbacks self' = _write_callbacks self ∧
   ∀ v, get_write_callback self' v = get_write_callback self v) ∧
  (∀ h', h' ≠ h ->
     _write_done_callbacks self' !! h' = _write_done_callbacks self !! h' ∧
     _notify_callbacks self' !! h' = _notify_callbacks self !! h' ∧
     _disconn_callbacks self' !! h' = _disconn_callbacks self !! h' ∧
     get_write_done_callback self' h' = get_write_done_callback self h' ∧
     get_notify_callback self' h' = get_notify_callback self h' ∧
     get_disconnect_callback self' h' = get_disconnect_callback self h' ∧
     has_callbacks self' h' = has_callbacks self h') ∧
  (_central_conn_callback self' = _central_conn_callback self ∧
   _central_disconn_callback self' = _central_disconn_callback self ∧
   _scan_result_callback self' = _scan_result_callback self ∧
   _scan_done_callback self' = _scan_done_callback self ∧
   _char_result_callback self' = _char_result_callback self).
Proof.
  intros self'. subst self'. split; [|split; [|split]].
  - unfold has_callbacks; simpl.
    rewrite !lookup_delete_eq, !dict_in_delete_eq. done.
  - split; [reflexivity | intros v; reflexivity].
  - intros h' Hne.
    assert (Hne' : h ≠ h') by congruence.
    unfold has_callbacks, get_write_done_callback, get_notify_callback,
      get_disconnect_callback; simpl.
    rewrite !lookup_delete_ne, !dict_in_delete_ne, !dict_get_delete_ne by exact Hne'.
    done.
  - done.
Qed.

End registry.

(** ** ConnectionContext *)

Section context.
Import ConnectionContext.

(** C6. [set_connection_info] always stores the connection handle it is
    given. With [addr_type] absent the stored address type is kept, and with
    [addr] absent the stored address is kept. An address that is given is
    stored as an immutable [bytes] copy of what it read as at the time of the
    call, so that it reads the same after any later write to the caller's
    buffer; an address type that is given is stored. No other attribute
    changes. *)
Theorem set_connection_info_partial (h : store) (self : t)
    (conn : option Z) (ty : option Z) (a : option buffer) :
  conn_handle (set_connection_info h self conn ty a) = conn ∧
  addr_type (set_connection_info h self conn None a) = addr_type self ∧
  addr (set_connection_info h self conn ty None) = addr self ∧
  (∀ b : buffer,
     addr (set_connection_info h self conn ty (Some b)) = Some (Bytes (contents h b)) ∧
     ∀ h' : store,
       contents h' <$> addr (set_connection_info h self conn ty (Some b))
       = Some (contents h b)) ∧
  (∀ n : Z, addr_type (set_connection_info h self conn (Some n) a) = Some n) ∧
  (let self' := set_connection_info h self conn ty a in
   start_handle self' = start_handle self ∧ end_handle self' = end_handle self ∧
   uart_rx_handle self' = uart_rx_handle self ∧
   uart_tx_handle self' = uart_tx_handle self ∧
   lego_value_handle self' = lego_value_handle self ∧
   adv_type self' = adv_type self ∧ name self' = name self ∧
   services self' = services self ∧ state self' = state self).
Proof.
  unfold set_connection_info.
  destruct ty, a; simpl; repeat split; intros; reflexivity.
Qed.

End context.

(** ** Sequencing and exceptions *)

Section statements.
Context {B : Type}.
Import Exec.

Lemma bind_Return {A C} (m : M B A) (k : A -> M B C) s s' a :
  m s = (s', Return a) -> bind m k s = k a s'.
Proof. intros Hm. unfold bind. by rewrite Hm. Qed.

Lemma bind_Raise {A C} (m : M B A) (k : A -> M B C) s s' e :
  m s = (s', Raise e) -> bind m k s = (s', Raise e).
Proof. intros Hm. unfold bind. by rewrite Hm. Qed.

(** A [try] with a handler that does nothing never raises. *)
Lemma try_except_pass (m : M B unit) s :
  (try_except m (ret tt) s).2 = Return tt.
Proof.
  unfold try_except. destruct (m s) as [s' [[]|e]]; reflexivity.
Qed.

Lemma try_except_pass_state (m : M B unit) s :
  (try_except m (ret tt) s).1 = (m s).1.
Proof.
  unfold try_except. destruct (m s) as [s' [[]|e]]; reflexivity.
Qed.

(** The four methods that the managers call on the context are not
    attributes of an instance of its class. *)
Lemma context_has_no_method {A} (s : State B) :
  context_method (A:=A) "reset" s = (s, Raise "AttributeError") ∧
  context_method (A:=A) "is_uart_ready" s = (s, Raise "AttributeError") ∧
  context_method (A:=A) "is_lego_ready" s = (s, Raise "AttributeError") ∧
  context_method (A:=A) "clear_connection" s = (s, Raise "AttributeError").
Proof. repeat split. Qed.

End statements.

(** ** The connection managers *)

Section managers.
Context {B : Type} `{BLE B} `{Orchestrator B}.
Import Exec.

(** The state in which [connect] gives up: the flag is set, the session is
    started, and nothing else has happened. *)
Lemma uart_start_eq name (s : State B) :
  UARTConnectionManager.start name s
  = (mkState (mkBLEHandler (_ble (ble_handler s))
                (DiscoveryManager.start_uart_discovery (_discovery (ble_handler s))
                   name None None)
                (_connection (ble_handler s))
                (_callbacks (ble_handler s)) (mtu (ble_handler s)))
             true (trace s) (clock s),
     Raise "AttributeError").
Proof. reflexivity. Qed.

Lemma lego_start_eq (s : State B) :
  LEGOConnectionManager.start s
  = (mkState (mkBLEHandler (_ble (ble_handler s))
                (DiscoveryManager.start_lego_discovery (_discovery (ble_handler s))
                   None None)
                (_connection (ble_handler s))
                (_callbacks (ble_handler s)) (mtu (ble_handler s)))
             true (trace s) (clock s),
     Raise "AttributeError").
Proof. reflexivity. Qed.

Lemma uart_connect_eq name on_d on_n on_w T debug (s : State B) :
  UARTConnectionManager.connect name on_d on_n on_w T debug s
  = ((UARTConnectionManager.start name s).1, Raise "AttributeError").
Proof.
  unfold UARTConnectionManager.connect.
  rewrite (bind_Raise _ _ s _ _ (uart_start_eq name s)).
  by rewrite uart_start_eq.
Qed.

Lemma lego_connect_eq T debug (s : State B) :
  LEGOConnectionManager.connect T debug s
  = ((LEGOConnectionManager.start s).1, Raise "AttributeError").
Proof.
  unfold LEGOConnectionManager.connect.
  rewrite (bind_Raise _ _ s _ _ (lego_start_eq s)).
  by rewrite lego_start_eq.
Qed.

(** [_negotiate_mtu] never raises. *)
Lemma negotiate_mtu_returns (s : State B) :
  (UARTConnectionManager._negotiate_mtu s).2 = Return tt.
Proof.
  unfold UARTConnectionManager._negotiate_mtu.
  unfold bind, get. apply try_except_pass.
Qed.

Lemma negotiate_mtu_state (s : State B) :
  (UARTConnectionManager._negotiate_mtu s).1
  = (UARTConnectionManager.mtu_exchange
       (ConnectionContext.conn_handle (_connection (ble_handler s))) s).1.
Proof.
  unfold UARTConnectionManager._negotiate_mtu.
  unfold bind, get. apply try_except_pass_state.
Qed.

(** C3, where the code departs from the claim. For every timeout, the
    timeouts of at least 1 included, [connect] performs no polling tick on
    either manager: it raises [AttributeError] at [_connection.reset()],
    before it asks for a scan, prints anything or sleeps, so that it returns
    no result and its trace and sleep count are what they were. [reset] is a
    function of the module [_connection_context], written below the class
    statement, and not a method of the class [ConnectionContext]. *)
Theorem connect_raises_before_first_tick (name : string)
    (on_d on_n on_w : option callback) (T : Z) (debug : bool) (s : State B) :
  1 <= T ->
  let u := UARTConnectionManager.connect name on_d on_n on_w T debug s in
  let l := LEGOConnectionManager.connect T debug s in
  (u.2 = Raise "AttributeError" ∧ trace u.1 = trace s ∧ clock u.1 = clock s) ∧
  (l.2 = Raise "AttributeError" ∧ trace l.1 = trace s ∧ clock l.1 = clock s).
Proof.
  intros _ u l. subst u l.
  rewrite uart_connect_eq, lego_connect_eq, uart_start_eq, lego_start_eq.
  repeat split.
Qed.

(** C9, where the code departs from the claim. [connect] does not end by
    stopping discovery: on both managers it raises [AttributeError] at
    [_connection.reset()], and the state it leaves has the session it has
    just started still open, with mode [CONNECTING_UART] or
    [CONNECTING_LEGO], and the connecting flag still set. This is the defect
    of C3. *)
Theorem connect_leaves_session_open (name : string)
    (on_d on_n on_w : option callback) (T : Z) (debug : bool) (s : State B) :
  let u := UARTConnectionManager.connect name on_d on_n on_w T debug s in
  let l := LEGOConnectionManager.connect T debug s in
  (u.2 = Raise "AttributeError" ∧
   DiscoveryManager.mode (_discovery (ble_handler u.1)) = CONNECTING_UART ∧
   DiscoveryManager.is_discovering (_discovery (ble_handler u.1)) = true ∧
   is_connecting u.1 = true) ∧
  (l.2 = Raise "AttributeError" ∧
   DiscoveryManager.mode (_discovery (ble_handler l.1)) = CONNECTING_LEGO ∧
   DiscoveryManager.is_discovering (_discovery (ble_handler l.1)) = true ∧
   is_connecting l.1 = true).
Proof.
  intros u l. subst u l.
  rewrite uart_connect_eq, lego_connect_eq, uart_start_eq, lego_start_eq.
  repeat split.
Qed.

(** C7, where the code departs from the claim. No UART [connect] reaches
    the success path: whatever the context holds, a context with both UART
    handles set included, [connect] raises [AttributeError] at
    [_connection.reset()] and returns no tuple; no callback is registered,
    no primitive of the stack is called, and the MTU is what it was.
    [_negotiate_mtu] itself does swallow what the stack raises: it returns
    normally in every state. This is the defect of C3. *)
Theorem connect_stops_before_negotiation (name : string)
    (on_d on_n on_w : option callback) (T : Z) (debug : bool) (s : State B) :
  let u := UARTConnectionManager.connect name on_d on_n on_w T debug s in
  u.2 = Raise "AttributeError" ∧
  _callbacks (ble_handler u.1) = _callbacks (ble_handler s) ∧
  _connection (ble_handler u.1) = _connection (ble_handler s) ∧
  _ble (ble_handler u.1) = _ble (ble_handler s) ∧
  mtu (ble_handler u.1) = mtu (ble_handler s) ∧
  trace u.1 = trace s ∧
  (∀ s' : State B, (UARTConnectionManager._negotiate_mtu s').2 = Return tt).
Proof.
  intros u. subst u. rewrite uart_connect_eq, uart_start_eq.
  repeat split. apply negotiate_mtu_returns.
Qed.

(** C8, where the code departs from the claim. For a connection handle
    that is not [None], [disconnect] on either manager asks the stack for the
    teardown, discards what that raises, clears the entries of the
    connection in the registry, and then raises [AttributeError] at
    [_connection.clear_connection()]: the context is not cleared, its
    connection handle and state are what they were. [clear_connection] is a
    function of the module [_connection_context] and not a method of the
    class. With [None] as the handle, [disconnect] changes nothing and
    returns. This is the defect of C3. *)
Theorem disconnect_raises_after_registry (conn : Z) (s : State B) :
  let u := UARTConnectionManager.disconnect (Some conn) s in
  let l := LEGOConnectionManager.disconnect (Some conn) s in
  (u.2 = Raise "AttributeError" ∧
   trace u.1 = trace s ++ [EvGapDisconnect (Some conn)] ∧
   _callbacks (ble_handler u.1)
     = CallbackRegistry.clear_connection (_callbacks (ble_handler s)) (Some conn) ∧
   _connection (ble_handler u.1) = _connection (ble_handler s)) ∧
  (l.2 = Raise "AttributeError" ∧
   trace l.1 = trace s ++ [EvGapDisconnect (Some conn)] ∧
   _callbacks (ble_handler l.1)
     = CallbackRegistry.clear_connection (_callbacks (ble_handler s)) (Some conn) ∧
   _connection (ble_handler l.1) = _connection (ble_handler s)) ∧
  UARTConnectionManager.disconnect None s = (s, Return tt) ∧
  LEGOConnectionManager.disconnect None s = (s, Return tt).
Proof.
  intros u l. subst u l.
  unfold UARTConnectionManager.disconnect, LEGOConnectionManager.disconnect.
  destruct s as [[b d c r m] ic tr ck].
  cbn [is_not_None truthy when].
  unfold bind, try_except, ble_call, modify_callbacks, modify_handler, context_method,
    ret; cbn.
  destruct (gap_disconnect (Some conn) b) as [b' [[]|e]]; cbn; done.
Qed.

(** C5, where the code departs from the claim. The function
    [clear_connection] of [_connection_context] does what the claim says: it
    sets the connection handle to [None] and the state to [STATE_IDLE] and
    keeps every other attribute. But [disconnect] does not reach it: it
    raises [AttributeError] at [_connection.clear_connection()], so that
    [disconnect(conn)] followed by the hub-name accessor does not return
    the name, it raises, and the context keeps its connection handle. This
    is the defect of C3. *)
Theorem clear_connection_not_reached :
  (∀ c : ConnectionContext.t,
     let c' := ConnectionContext.clear_connection c in
     ConnectionContext.conn_handle c' = None ∧
     ConnectionContext.state c' = ConnectionContext.STATE_IDLE ∧
     ConnectionContext.addr_type c' = ConnectionContext.addr_type c ∧
     ConnectionContext.addr c' = ConnectionContext.addr c ∧
     ConnectionContext.start_handle c' = ConnectionContext.start_handle c ∧
     ConnectionContext.end_handle c' = ConnectionContext.end_handle c ∧
     ConnectionContext.uart_rx_handle c' = ConnectionContext.uart_rx_handle c ∧
     ConnectionContext.uart_tx_handle c' = ConnectionContext.uart_tx_handle c ∧
     ConnectionContext.lego_value_handle c' = ConnectionContext.lego_value_handle c ∧
     ConnectionContext.adv_type c' = ConnectionContext.adv_type c ∧
     ConnectionContext.name c' = ConnectionContext.name c ∧
     ConnectionContext.services c' = ConnectionContext.services c) ∧
  (∀ (s : State B) (conn : Z) (arg : option Z),
     let r := bind (LEGOConnectionManager.disconnect (Some conn))
                   (fun _ => LEGOConnectionManager.get_hub_name arg) s in
     r.2 = Raise "AttributeError" ∧
     _connection (ble_handler r.1) = _connection (ble_handler s)).
Proof.
  split; [intros c c'; done|].
  intros s conn arg r. subst r.
  unfold LEGOConnectionManager.disconnect.
  destruct s as [[b d c r m] ic tr ck].
  cbn [is_not_None truthy when].
  unfold bind, try_except, ble_call, modify_callbacks, modify_handler, context_method,
    ret; cbn.
  destruct (gap_disconnect (Some conn) b) as [b' [[]|e]]; cbn; done.
Qed.

End managers.

(** ** The scenarios of the specification, run on the code *)

(** Scenario D through [connect_raises_before_first_tick]: with a timeout
    of 3 on a quiet radio, both managers raise at once and their traces stay
    empty. *)
Lemma connect_raises_before_first_tick_witness :
  let u := @UARTConnectionManager.connect unit Scenario.stack_ok Scenario.quiet
             "robot" None None None 3 false Scenario.fresh in
  let l := @LEGOConnectionManager.connect unit Scenario.quiet 3 false Scenario.fresh in
  1 <= 3 ∧
  (u.2 = Raise "AttributeError" ∧ trace u.1 = []) ∧
  (l.2 = Raise "AttributeError" ∧ trace l.1 = []).
Proof.
  intros u l.
  assert (H13 : 1 <= 3) by lia.
  destruct (@connect_raises_before_first_tick unit Scenario.stack_ok Scenario.quiet
              "robot" None None None 3 false Scenario.fresh H13)
    as ((Hu & Hutr & _) & (Hl & Hltr & _)).
  split; [exact H13 | split; split].
  - exact Hu.
  - exact Hutr.
  - exact Hl.
  - exact Hltr.
Defined.

(** [connect_leaves_session_open] on a new handler: after the call the
    session for "robot" is still open and the manager still says it is
    connecting. *)
Lemma connect_leaves_session_open_witness :
  let u := @UARTConnectionManager.connect unit Scenario.stack_ok Scenario.quiet
             "robot" None None None 10 false Scenario.fresh in
  u.2 = Raise "AttributeError" ∧
  DiscoveryManager.mode (_discovery (ble_handler u.1)) = 1 ∧
  DiscoveryManager._search_name (_discovery (ble_handler u.1)) = Some "robot" ∧
  is_connecting u.1 = true.
Proof.
  intros u.
  destruct (@connect_leaves_session_open unit Scenario.stack_ok Scenario.quiet
              "robot" None None None 10 false Scenario.fresh)
    as ((Hu & Hmode & _ & Hflag) & _).
  split; [exact Hu | split; [exact Hmode | split; [reflexivity | exact Hflag]]].
Defined.

(** [connect_stops_before_negotiation] on a handler whose context already
    has both UART handles, with callbacks to register and a stack that would
    fail the MTU exchange: no tuple is returned and nothing is
    registered. *)
Lemma connect_stops_before_negotiation_witness :
  let u := @UARTConnectionManager.connect unit Scenario.stack_no_exchange Scenario.quiet
             "robot" (Some 1%nat) (Some 2%nat) None 10 false Scenario.robot_linked in
  ConnectionContext.is_uart_ready (_connection (ble_handler Scenario.robot_linked)) = true ∧
  u.2 = Raise "AttributeError" ∧
  CallbackRegistry.has_callbacks (_callbacks (ble_handler u.1)) (Some 3) = false ∧
  mtu (ble_handler u.1) = 20.
Proof.
  intros u.
  destruct (@connect_stops_before_negotiation unit Scenario.stack_no_exchange
              Scenario.quiet "robot" (Some 1%nat) (Some 2%nat) None 10 false
              Scenario.robot_linked)
    as (Hu & Hreg & _ & _ & Hmtu & _).
  split; [reflexivity | split; [exact Hu | split]].
  - fold u in Hreg. rewrite Hreg. reflexivity.
  - etransitivity; [exact Hmtu | reflexivity].
Defined.

(** [disconnect_raises_after_registry] on the linked hub: the notify
    callback of connection 7 is gone, and the context still holds
    connection 7. *)
Lemma disconnect_raises_after_registry_witness :
  let u := @LEGOConnectionManager.disconnect unit Scenario.stack_ok (Some 7)
             Scenario.hub_linked in
  u.2 = Raise "AttributeError" ∧
  CallbackRegistry.has_callbacks (_callbacks (ble_handler Scenario.hub_linked)) (Some 7) = true ∧
  CallbackRegistry.has_callbacks (_callbacks (ble_handler u.1)) (Some 7) = false ∧
  ConnectionContext.conn_handle (_connection (ble_handler u.1)) = Some 7.
Proof.
  intros u.
  destruct (@disconnect_raises_after_registry unit Scenario.stack_ok 7 Scenario.hub_linked)
    as (_ & (Hl & _ & Hreg & Hctx) & _).
  fold u in Hl, Hreg, Hctx.
  split; [exact Hl | split; [reflexivity | split]].
  - rewrite Hreg. reflexivity.
  - rewrite Hctx. reflexivity.
Defined.

(** Scenario E through [clear_connection_not_reached]: on the linked hub
    "Hub42", [disconnect(7)] followed by the hub-name accessor raises. *)
Lemma clear_connection_not_reached_witness :
  let r := Exec.bind (@LEGOConnectionManager.disconnect unit Scenario.stack_ok (Some 7))
             (fun _ => @LEGOConnectionManager.get_hub_name unit None)
             Scenario.hub_linked in
  ConnectionContext.name (_connection (ble_handler Scenario.hub_linked)) = Some "Hub42" ∧
  r.2 = Raise "AttributeError" ∧
  ConnectionContext.conn_handle (_connection (ble_handler r.1)) = Some 7.
Proof.
  intros r.
  destruct (proj2 (@clear_connection_not_reached unit Scenario.stack_ok)
              Scenario.hub_linked 7 None) as (Hr & Hctx).
  fold r in Hr, Hctx.
  split; [reflexivity | split; [exact Hr|]].
  rewrite Hctx. reflexivity.
Defined.

(** [clear_connection_frame] on a registry holding a notify callback for
    connections 3 and 4 and a write callback for value handle 12: clearing
    connection 3 leaves the other two in place. *)
Lemma clear_connection_frame_witness :
  let reg := CallbackRegistry.on_write
               (CallbackRegistry.on_notify
                  (CallbackRegistry.on_notify CallbackRegistry.__init__ (Some 3) (Some 2%nat))
                  (Some 4) (Some 5%nat))
               (Some 12) (Some 9%nat) in
  let reg' := CallbackRegistry.clear_connection reg (Some 3) in
  CallbackRegistry.has_callbacks reg (Some 3) = true ∧
  CallbackRegistry.has_callbacks reg' (Some 3) = false ∧
  CallbackRegistry.has_callbacks reg' (Some 4) = true ∧
  CallbackRegistry.get_notify_callback reg' (Some 4) = Some 5%nat ∧
  CallbackRegistry.get_write_callback reg' (Some 12) = Some 9%nat.
Proof.
  intros reg reg'.
  destruct (clear_connection_frame reg (Some 3))
    as ((_ & _ & _ & Hgone) & (_ & Hwrite) & Hother & _).
  assert (Hne : Some 4 ≠ Some 3) by discriminate.
  destruct (Hother (Some 4) Hne) as (_ & _ & _ & _ & Hnotify & _ & Hhas).
  split; [reflexivity | split; [exact Hgone | split; [|split]]].
  - etransitivity; [exact Hhas | reflexivity].
  - etransitivity; [exact Hnotify | reflexivity].
  - etransitivity; [exact (Hwrite (Some 12)) | reflexivity].
Defined.

(** [set_connection_info_partial] on a context that already knows its peer:
    a later call with the handle alone keeps the address type and the
    address. *)
Lemma set_connection_info_partial_witness :
  let c := ConnectionContext.set_connection_info Scenario.radio_buffers
             ConnectionContext.__init__ (Some 3) (Some 1) (Some (BufRef 0%nat)) in
  let c' := ConnectionContext.set_connection_info Scenario.radio_buffers c (Some 4) None None in
  ConnectionContext.conn_handle c' = Some 4 ∧
  ConnectionContext.addr_type c' = Some 1 ∧
  ConnectionContext.addr c' = Some (Bytes [x01; x02; x03; x04; x05; x06]).
Proof.
  intros c c'.
  destruct (set_connection_info_partial Scenario.radio_buffers c (Some 4) None None)
    as (Hconn & Hty & Haddr & _).
  split; [exact Hconn | split].
  - etransitivity; [exact Hty | reflexivity].
  - etransitivity; [exact Haddr | reflexivity].
Defined.

(** * Further properties of the code *)

(** ** CallbackRegistry: registration, lookup and clean-up *)

Section registry_more.
Import CallbackRegistry.

Lemma dict_get_insert (d : gmap (option Z) (option callback)) k cb k' :
  dict_get (<[k := cb]> d) k' = if decide (k' = k) then cb else dict_get d k'.
Proof.
  unfold dict_get. rewrite lookup_insert.
  destruct (decide (k = k')) as [->|Hne].
  - by rewrite decide_True.
  - rewrite decide_False by congruence. done.
Qed.

Lemma dict_in_insert (d : gmap (option Z) (option callback)) k cb :
  dict_in k (<[k := cb]> d) = true.
Proof. unfold dict_in. by rewrite lookup_insert_eq. Qed.

(** X1. Each of the four keyed registrations is read back by its getter:
    the getter answers the callback registered last under the key, also
    when one was registered before, and answers as before for every other
    key. A registration in one dictionary is not seen by the getters of the
    other three. *)
Theorem registry_lookup_after_register (self : t) (k k' : option Z) (cb : option callback) :
  (get_write_callback (on_write self k cb) k'
     = (if decide (k' = k) then cb else get_write_callback self k') ∧
   get_write_done_callback (on_write_done self k cb) k'
     = (if decide (k' = k) then cb else get_write_done_callback self k') ∧
   get_notify_callback (on_notify self k cb) k'
     = (if decide (k' = k) then cb else get_notify_callback self k') ∧
   get_disconnect_callback (on_disconnect self k cb) k'
     = (if decide (k' = k) then cb else get_disconnect_callback self k')) ∧
  (get_write_done_callback (on_write self k cb) k' = get_write_done_callback self k' ∧
   get_notify_callback (on_write self k cb) k' = get_notify_callback self k' ∧
   get_disconnect_callback (on_write self k cb) k' = get_disconnect_callback self k' ∧
   get_write_callback (on_write_done self k cb) k' = get_write_callback self k' ∧
   get_notify_callback (on_write_done self k cb) k' = get_notify_callback self k' ∧
   get_disconnect_callback (on_write_done self k cb) k' = get_disconnect_callback self k' ∧
   get_write_callback (on_notify self k cb) k' = get_write_callback self k' ∧
   get_write_done_callback (on_notify self k cb) k' = get_write_done_callback self k' ∧
   get_disconnect_callback (on_notify self k cb) k' = get_disconnect_callback self k' ∧
   get_write_callback (on_disconnect self k cb) k' = get_write_callback self k' ∧
   get_write_done_callback (on_disconnect self k cb) k' = get_write_done_callback self k' ∧
   get_notify_callback (on_disconnect self k cb) k' = get_notify_callback self k').
Proof.
  unfold get_write_callback, get_write_done_callback, get_notify_callback,
    get_disconnect_callback; simpl.
  rewrite !dict_get_insert. done.
Qed.

(** X2. [has_callbacks] tests for the key, not for the value: after a
    notify, disconnect or write-done registration under [k] it is true for
    [k], also when the callback registered is [None], in which case the
    getter still answers [None]. A write registration does not count: it
    leaves [has_callbacks] as it was, for every key. *)
Theorem has_callbacks_after_register (self : t) (k k' : option Z) (cb : option callback) :
  has_callbacks (on_write_done self k cb) k = true ∧
  has_callbacks (on_notify self k cb) k = true ∧
  has_callbacks (on_disconnect self k cb) k = true ∧
  (has_callbacks (on_notify self k None) k = true ∧
   get_notify_callback (on_notify self k None) k = None) ∧
  has_callbacks (on_write self k cb) k' = has_callbacks self k'.
Proof.
  unfold has_callbacks, get_notify_callback; simpl.
  rewrite !dict_in_insert, !dict_get_insert, decide_True by done.
  rewrite !orb_true_r. done.
Qed.

(** X3. Clearing a connection undoes its registrations and nothing else:
    registering a write-done, notify or disconnect callback under [k] and
    then clearing [k] gives the registry that clearing [k] alone gives.
    Clearing twice is clearing once, and connections can be cleared in
    either order. *)
Theorem clear_connection_composes (self : t) (k k' : option Z) (cb : option callback) :
  clear_connection (on_write_done self k cb) k = clear_connection self k ∧
  clear_connection (on_notify self k cb) k = clear_connection self k ∧
  clear_connection (on_disconnect self k cb) k = clear_connection self k ∧
  clear_connection (clear_connection self k) k = clear_connection self k ∧
  clear_connection (clear_connection self k) k'
    = clear_connection (clear_connection self k') k.
Proof.
  unfold clear_connection; simpl.
  rewrite !delete_insert_eq, !delete_delete_eq.
  repeat split; f_equal; apply delete_delete.
Qed.

(** X4. After [clear_all] the registry holds nothing: every keyed getter
    answers [None] for every key, every singleton getter answers [None],
    and [has_callbacks] is false for every connection. *)
Theorem clear_all_empties (self : t) (k : option Z) :
  let self' := clear_all self in
  get_write_callback self' k = None ∧
  get_write_done_callback self' k = None ∧
  get_notify_callback self' k = None ∧
  get_disconnect_callback self' k = None ∧
  has_callbacks self' k = false ∧
  get_central_conn_callback self' = None ∧
  get_central_disconn_callback self' = None ∧
  get_scan_result_callback self' = None ∧
  get_scan_done_callback self' = None ∧
  get_char_result_callback self' = None.
Proof.
  unfold get_write_callback, get_write_done_callback, get_notify_callback,
    get_disconnect_callback, has_callbacks, dict_get, dict_in; simpl.
  rewrite !lookup_empty. done.
Qed.

End registry_more.

(** ** ConnectionContext: what sequences of calls can and cannot reach *)

Section context_more.
Import ConnectionContext Calls.

Lemma context_run_snoc l c : context_run (l ++ [c]) = context_step (context_run l) c.
Proof. unfold context_run. by rewrite fold_left_app. Qed.

(** X5. No function of the context ever assigns a lifecycle state other
    than [STATE_IDLE]: after any sequence of calls on a new context the
    state is [STATE_IDLE] and [is_connected] is false, whatever connection
    handle was set. The stored address, when there is one, is an immutable
    [bytes] value. *)
Theorem context_never_leaves_idle (l : list context_call) :
  state (context_run l) = STATE_IDLE ∧
  is_connected (context_run l) = false ∧
  (addr (context_run l) = None ∨ ∃ bs, addr (context_run l) = Some (Bytes bs)).
Proof.
  assert (Hinv : state (context_run l) = STATE_IDLE ∧
                 (addr (context_run l) = None ∨ ∃ bs, addr (context_run l) = Some (Bytes bs))).
  { induction l as [|c l IH] using rev_ind.
    - split; [reflexivity | left; reflexivity].
    - rewrite context_run_snoc. destruct IH as [Hst Haddr].
      destruct c as [|h conn ty a|s e|rx tx|v|adv nm sv|]; simpl;
        try (split; [exact Hst | exact Haddr]);
        try (split; [reflexivity | first [left; reflexivity | exact Haddr]]).
      unfold set_connection_info.
      destruct ty, a; simpl; (split; [exact Hst|]);
        first [exact Haddr | right; eexists; reflexivity]. }
  destruct Hinv as [Hst Haddr]. split; [exact Hst | split; [|exact Haddr]].
  unfold is_connected. rewrite Hst.
  rewrite bool_decide_eq_false_2 by discriminate. apply andb_false_r.
Qed.

(** X6. [set_discovery_data] never stores [None] as the services: a
    non-empty list is stored as it is, and both [None] and the empty list
    are stored as the empty list. The advertisement type and name are stored
    as given, and the readiness tests answer as before. *)
Theorem set_discovery_data_services (self : t)
    (adv : option Z) (nm : option string) (u : UUID) (l : list UUID) :
  services (set_discovery_data self adv nm (Some (u :: l))) = Some (u :: l) ∧
  services (set_discovery_data self adv nm (Some [])) = Some [] ∧
  services (set_discovery_data self adv nm None) = Some [] ∧
  (∀ sv, services (set_discovery_data self adv nm sv) ≠ None ∧
         adv_type (set_discovery_data self adv nm sv) = adv ∧
         name (set_discovery_data self adv nm sv) = nm ∧
         is_uart_ready (set_discovery_data self adv nm sv) = is_uart_ready self ∧
         is_lego_ready (set_discovery_data self adv nm sv) = is_lego_ready self ∧
         has_discovery_handles (set_discovery_data self adv nm sv)
           = has_discovery_handles self).
Proof.
  split; [reflexivity | split; [reflexivity | split; [reflexivity|]]].
  intros sv. split; [discriminate | repeat split].
Qed.

(** X7. Only [set_uart_handles], [set_lego_handle], [set_discovery_handles]
    and [reset] change what the readiness tests answer. After
    [set_uart_handles] the context is UART-ready exactly when both handles
    given are not [None] (likewise for the hub handle and for the discovery
    handles); every other setter, and [clear_connection], leaves
    [is_uart_ready], [is_lego_ready] and [has_discovery_handles] as they
    were; [reset] makes them and [is_connected] false. *)
Theorem readiness_frame (self : t) (h : store)
    (conn ty : option Z) (a : option buffer) (x y : option Z) :
  (is_uart_ready (set_uart_handles self x y) = is_not_None x && is_not_None y ∧
   is_lego_ready (set_lego_handle self x) = is_not_None x ∧
   has_discovery_handles (set_discovery_handles self x y)
     = is_not_None x && is_not_None y) ∧
  (is_uart_ready (set_connection_info h self conn ty a) = is_uart_ready self ∧
   is_uart_ready (set_discovery_handles self x y) = is_uart_ready self ∧
   is_uart_ready (set_lego_handle self x) = is_uart_ready self ∧
   is_uart_ready (clear_connection self) = is_uart_ready self) ∧
  (is_lego_ready (set_connection_info h self conn ty a) = is_lego_ready self ∧
   is_lego_ready (set_discovery_handles self x y) = is_lego_ready self ∧
   is_lego_ready (set_uart_handles self x y) = is_lego_ready self ∧
   is_lego_ready (clear_connection self) = is_lego_ready self) ∧
  (has_discovery_handles (set_connection_info h self conn ty a)
     = has_discovery_handles self ∧
   has_discovery_handles (set_uart_handles self x y) = has_discovery_handles self ∧
   has_discovery_handles (set_lego_handle self x) = has_discovery_handles self ∧
   has_discovery_handles (clear_connection self) = has_discovery_handles self) ∧
  (is_uart_ready (reset self) = false ∧
   is_lego_ready (reset self) = false ∧
   has_discovery_handles (reset self) = false ∧
   is_connected (reset self) = false).
Proof.
  unfold set_connection_info. destruct ty, a; repeat split.
Qed.

End context_more.

#[local] Set Warnings "-clear-no-such-hyp".

Section discovery_more.
Import DiscoveryManager Calls.

(** In the package as it is, a call of [on_scan_result] leaves the
    manager as it was. *)
Lemma scan_leaves_manager (uart_uuid lego_uuid : UUID) (d : t) (a : advertisement) :
  scan uart_uuid lego_uuid d a = d.
Proof.
  unfold scan. by rewrite (on_scan_result_unresolved package), ?package_has_no_alias.
Qed.

Lemma discovery_ok_init : discovery_ok __init__.
Proof. unfold discovery_ok. cbn. naive_solver. Qed.

Lemma discovery_ok_step (d : t) (c : discovery_call) :
  discovery_ok d -> discovery_ok (discovery_step d c).
Proof.
  intros Hok. destruct c as [name cr cd | cr cd | | a u l | ]; cbn [discovery_step].
  - destruct d. unfold discovery_ok, CONNECTING_NONE, CONNECTING_UART, CONNECTING_LEGO in *.
    cbn in *. naive_solver.
  - destruct d. unfold discovery_ok, CONNECTING_NONE, CONNECTING_UART, CONNECTING_LEGO in *.
    cbn in *. naive_solver.
  - destruct d. unfold discovery_ok, CONNECTING_NONE, CONNECTING_UART, CONNECTING_LEGO in *.
    cbn in *. naive_solver.
  - by rewrite scan_leaves_manager.
  - unfold on_scan_done.
    by repeat case_bool_decide; destruct (_scan_done_callback d).
Qed.

Lemma discovery_ok_run (l : list discovery_call) : discovery_ok (discovery_run l).
Proof.
  unfold discovery_run. induction l as [|c l IH] using rev_ind.
  - exact discovery_ok_init.
  - rewrite fold_left_app. cbn [fold_left]. by apply discovery_ok_step.
Qed.

(** X10. No sequence of calls on a new [DiscoveryManager] ever records a
    peer. After any calls of [start_uart_discovery], [start_lego_discovery],
    [stop_discovery], [on_scan_result] and [on_scan_done], in any order and
    with any arguments: the mode is 0, 1 or 2; outside a session no callback
    is installed; a UART session has a search name; the six result attributes
    are all [None], so [get_discovered_address] answers [(None, None)] and
    [on_scan_done] reports [(False, None)], to the done callback as well; and
    one more [on_scan_result] raises [ModuleNotFoundError], calls nothing
    and leaves the manager as it is, whatever is advertised. *)
Theorem discovery_calls_store_nothing (l : list discovery_call) :
  let d := discovery_run l in
  discovery_ok d ∧
  get_discovered_address d = (None, None) ∧
  (on_scan_done d).2 = (false, None) ∧
  (on_scan_done d).1.1 = d ∧
  (∀ f found, ScanDone f found ∈ (on_scan_done d).1.2 -> found = false) ∧
  (∀ h addr_type addr name services uart_uuid lego_uuid,
     on_scan_result package h d addr_type addr name services uart_uuid lego_uuid
     = (d, [], Raise "ModuleNotFoundError")).
Proof.
  intros d. pose proof (discovery_ok_run l) as Hok. fold d in Hok.
  split; [exact Hok|].
  destruct Hok as (_ & _ & _ & H1 & H2 & H3 & H4 & H5 & H6).
  assert (Hdone : on_scan_done d
                  = (d, match _scan_done_callback d with
                        | Some f => [ScanDone f false]
                        | None => []
                        end, (false, None))).
  { unfold on_scan_done. rewrite H1. cbn.
    repeat case_bool_decide; reflexivity. }
  split; [unfold get_discovered_address; by rewrite H1, H2|].
  rewrite Hdone. cbn [fst snd].
  split; [reflexivity | split; [reflexivity | split]].
  - intros f found Hin. destruct (_scan_done_callback d) as [g|].
    + apply list_elem_of_singleton in Hin. congruence.
    + by apply elem_of_nil in Hin.
  - intros. apply on_scan_result_unresolved, package_has_no_alias.
Qed.

End discovery_more.

Section managers_more.
Context {B : Type} `{BLE B} `{Orchestrator B}.
Import Exec.

(** X15. The registrations of [connect] go under the connection handle the
    context holds at that moment, and only for the callbacks that were
    given: a callback that is given replaces the one registered under that
    handle, a callback left out leaves the earlier registration in place.
    Entries of other handles, write callbacks, and everything outside the
    registry are untouched. *)
Theorem register_callbacks_effect (on_d on_n on_w : option callback)
    (k : option Z) (s : State B) :
  let conn := ConnectionContext.conn_handle (_connection (ble_handler s)) in
  let r := UARTConnectionManager.register_callbacks on_d on_n on_w s in
  let reg := _callbacks (ble_handler s) in
  let reg' := _callbacks (ble_handler r.1) in
  r.2 = Return tt ∧
  CallbackRegistry.get_notify_callback reg' k
    = match on_n with
      | Some f => if decide (k = conn) then Some f
                  else CallbackRegistry.get_notify_callback reg k
      | None => CallbackRegistry.get_notify_callback reg k
      end ∧
  CallbackRegistry.get_disconnect_callback reg' k
    = match on_d with
      | Some f => if decide (k = conn) then Some f
                  else CallbackRegistry.get_disconnect_callback reg k
      | None => CallbackRegistry.get_disconnect_callback reg k
      end ∧
  CallbackRegistry.get_write_done_callback reg' k
    = match on_w with
      | Some f => if decide (k = conn) then Some f
                  else CallbackRegistry.get_write_done_callback reg k
      | None => CallbackRegistry.get_write_done_callback reg k
      end ∧
  CallbackRegistry.get_write_callback reg' k = CallbackRegistry.get_write_callback reg k ∧
  _connection (ble_handler r.1) = _connection (ble_handler s) ∧
  _discovery (ble_handler r.1) = _discovery (ble_handler s) ∧
  mtu (ble_handler r.1) = mtu (ble_handler s) ∧
  trace r.1 = trace s ∧ clock r.1 = clock s.
Proof.
  destruct s as [[b d c reg m] ic tr ck].
  unfold CallbackRegistry.get_notify_callback, CallbackRegistry.get_disconnect_callback,
    CallbackRegistry.get_write_done_callback, CallbackRegistry.get_write_callback.
  destruct on_d, on_n, on_w; cbn; rewrite ?dict_get_insert; done.
Qed.


(** X16. [_negotiate_mtu] returns normally in every state, whatever the
    stack does, and what it leaves is decided by the first step that
    fails. If the request for [TARGET_MTU] raises, nothing else is
    attempted. If the exchange raises, there is no sleep and no query. In
    both cases the MTU is kept. Otherwise there is one sleep of 60 ms, then
    the query; the MTU becomes [n - 4] if the query answers the number [n],
    and is the MTU that the sleep left if the query raises or answers
    something that is not a number. The connecting flag is never
    touched. *)
Theorem negotiate_mtu_steps (s : State B) :
  let h := ble_handler s in
  let conn := ConnectionContext.conn_handle (_connection h) in
  let c1 := config_set_mtu TARGET_MTU (_ble h) in
  let c2 := gattc_exchange_mtu conn c1.1 in
  let h3 := deliver (clock s)
              (mkBLEHandler c2.1 (_discovery h) (_connection h) (_callbacks h) (mtu h)) in
  let c4 := config_get_mtu (_ble h3) in
  let r := UARTConnectionManager._negotiate_mtu s in
  r.2 = Return tt ∧
  is_connecting r.1 = is_connecting s ∧
  match c1.2, c2.2 with
  | Raise _, _ =>
      trace r.1 = trace s ++ [EvConfigSetMtu TARGET_MTU] ∧
      clock r.1 = clock s ∧
      ble_handler r.1
      = mkBLEHandler c1.1 (_discovery h) (_connection h) (_callbacks h) (mtu h)
  | Return _, Raise _ =>
      trace r.1 = trace s ++ [EvConfigSetMtu TARGET_MTU; EvExchangeMtu conn] ∧
      clock r.1 = clock s ∧
      ble_handler r.1
      = mkBLEHandler c2.1 (_discovery h) (_connection h) (_callbacks h) (mtu h)
  | Return _, Return _ =>
      trace r.1 = trace s ++ [EvConfigSetMtu TARGET_MTU; EvExchangeMtu conn;
                              EvSleep 60; EvConfigGetMtu] ∧
      clock r.1 = S (clock s) ∧
      ble_handler r.1
      = mkBLEHandler c4.1 (_discovery h3) (_connection h3) (_callbacks h3)
          match c4.2 with
          | Return (Some n) => n - 4
          | _ => mtu h3
          end
  end.
Proof.
  intros h conn c1 c2 h3 c4 r. subst r c4 h3 c2 c1 conn h.
  unfold UARTConnectionManager._negotiate_mtu, UARTConnectionManager.mtu_exchange,
    bind, try_except, get, ble_call, sleep_ms, set_mtu, modify_handler, raise, ret.
  destruct s as [[b d c reg m] ic tr ck]; cbn.
  destruct (config_set_mtu TARGET_MTU b) as [b1 [[]|e1]]; cbn; [|done].
  destruct (gattc_exchange_mtu (ConnectionContext.conn_handle c) b1)
    as [b2 [[]|e2]]; cbn; [|rewrite <- !app_assoc; done].
  destruct (deliver ck (mkBLEHandler b2 d c reg m)) as [b3 d3 c3 r3 m3]; cbn.
  destruct (config_get_mtu b3) as [b4 [[v|]|e4]]; cbn; rewrite <- !app_assoc; done.
Qed.

(** X18. [get_hub_name] reads the name of the context and nothing else: it
    ignores its argument, changes nothing and never raises. It answers
    [None] for a missing and for an empty name, and so never answers the
    empty string. It does not ask whether the context is connected: a name
    is still reported when [clear_connection] has been applied to the
    context, and no name is reported once [reset] has been. *)
Theorem get_hub_name_result (arg : option Z) (s : State B) :
  let c := _connection (ble_handler s) in
  let with_context (c' : ConnectionContext.t) :=
    mkState (mkBLEHandler (_ble (ble_handler s)) (_discovery (ble_handler s)) c'
               (_callbacks (ble_handler s)) (mtu (ble_handler s)))
            (is_connecting s) (trace s) (clock s) in
  let r := LEGOConnectionManager.get_hub_name arg s in
  r.1 = s ∧
  (∃ v, r.2 = Return v ∧ v ≠ Some ""%string ∧
        (v = None <-> ConnectionContext.name c = None ∨
                      ConnectionContext.name c = Some ""%string) ∧
        (∀ n, v = Some n -> ConnectionContext.name c = Some n)) ∧
  (∀ arg', (LEGOConnectionManager.get_hub_name arg' s).2 = r.2) ∧
  (LEGOConnectionManager.get_hub_name arg
     (with_context (ConnectionContext.clear_connection c))).2 = r.2 ∧
  (LEGOConnectionManager.get_hub_name arg
     (with_context (ConnectionContext.reset c))).2 = Return None.
Proof.
  intros c with_context r. subst r with_context c.
  destruct s as [[b d c reg m] ic tr ck].
  unfold LEGOConnectionManager.get_hub_name, bind, get, ret. cbn.
  destruct (ConnectionContext.name c) as [n|] eqn:Hn.
  - case_bool_decide as He; cbn.
    + subst n. split; [done|]. split; [|done].
      exists None. split; [done|]. split; [done|]. split; [|done].
      split; [by right | done].
    + split; [done|]. split; [|done].
      exists (Some n). split; [done|]. split; [congruence|]. split; [|done].
      split; [done | intros [Hc|Hc]; congruence].
  - cbn. split; [done|]. split; [|done].
    exists None. split; [done|]. split; [done|]. split; [|done].
    split; [by left | done].
Qed.

End managers_more.

(** [discovery_calls_store_nothing] on Scenario A: after the session for
    "robot" was started and the matching advertisement handed in, no address
    is recorded and the session is still open. *)
Lemma discovery_calls_store_nothing_witness :
  let d := Calls.discovery_run
             [Calls.CallStartUart "robot" None (Some 4%nat);
              Calls.CallScanResult
                (Calls.mkAdv Scenario.radio_buffers 1 (BufRef 0%nat) "robot"
                   [Scenario.UART_UUID])
                Scenario.UART_UUID Scenario.HUB_UUID] in
  DiscoveryManager.get_discovered_address d = (None, None) ∧
  DiscoveryManager.mode d = CONNECTING_UART ∧
  DiscoveryManager.on_scan_done d = (d, [DiscoveryManager.ScanDone 4%nat false], (false, None)).
Proof.
  intros d.
  destruct (discovery_calls_store_nothing
              [Calls.CallStartUart "robot" None (Some 4%nat);
               Calls.CallScanResult
                 (Calls.mkAdv Scenario.radio_buffers 1 (BufRef 0%nat) "robot"
                    [Scenario.UART_UUID])
                 Scenario.UART_UUID Scenario.HUB_UUID])
    as (_ & Haddr & _).
  split; [exact Haddr | split; reflexivity].
Defined.

(** [negotiate_mtu_steps] on a stack that answers 188, where the MTU becomes
    184, on a stack that raises at once, and on a stack whose exchange
    raises; in the last two the MTU stays 20. *)
Lemma negotiate_mtu_steps_witness :
  let ok := @UARTConnectionManager._negotiate_mtu unit Scenario.stack_ok Scenario.quiet
              Scenario.fresh in
  let ko := @UARTConnectionManager._negotiate_mtu unit Scenario.stack_failing Scenario.quiet
              Scenario.fresh in
  let ke := @UARTConnectionManager._negotiate_mtu unit Scenario.stack_no_exchange
              Scenario.quiet Scenario.fresh in
  (ok.2 = Return tt ∧
   trace ok.1 = [EvConfigSetMtu 184; EvExchangeMtu None; EvSleep 60; EvConfigGetMtu] ∧
   mtu (ble_handler ok.1) = 184) ∧
  (ko.2 = Return tt ∧
   trace ko.1 = [EvConfigSetMtu 184] ∧
   mtu (ble_handler ko.1) = 20) ∧
  (ke.2 = Return tt ∧
   trace ke.1 = [EvConfigSetMtu 184; EvExchangeMtu None] ∧
   mtu (ble_handler ke.1) = 20).
Proof.
  intros ok ko ke. split; [|split].
  - destruct (@negotiate_mtu_steps unit Scenario.stack_ok Scenario.quiet Scenario.fresh)
      as (Hret & _ & Hcase).
    split; [exact Hret|]. cbn in Hcase. destruct Hcase as (Htr & _ & Hh).
    split; [exact Htr | exact (f_equal mtu Hh)].
  - destruct (@negotiate_mtu_steps unit Scenario.stack_failing Scenario.quiet Scenario.fresh)
      as (Hret & _ & Hcase).
    split; [exact Hret|]. cbn in Hcase. destruct Hcase as (Htr & _ & Hh).
    split; [exact Htr | exact (f_equal mtu Hh)].
  - destruct (@negotiate_mtu_steps unit Scenario.stack_no_exchange Scenario.quiet
                Scenario.fresh)
      as (Hret & _ & Hcase).
    split; [exact Hret|]. cbn in Hcase. destruct Hcase as (Htr & _ & Hh).
    split; [exact Htr | exact (f_equal mtu Hh)].
Defined.

(** [get_hub_name_result] on the linked hub: the name is "Hub42", with or
    without a connection. *)
Lemma get_hub_name_result_witness :
  (@LEGOConnectionManager.get_hub_name unit (Some 7) Scenario.hub_linked).2
  = Return (Some "Hub42"%string) ∧
  (@LEGOConnectionManager.get_hub_name unit None Scenario.hub_linked).2
  = Return (Some "Hub42"%string).
Proof.
  destruct (@get_hub_name_result unit (Some 7) Scenario.hub_linked)
    as (_ & _ & Harg & _).
  split; [reflexivity | rewrite (Harg None); reflexivity].
Defined.
